(** * yurl: a shallow embedding of [yurl/__init__.py]

    The URL class of yurl is a 7-tuple of strings with a parser driven by a
    regular expression, a serializer, a validator and three combinators
    (join, replace, setdefault).  Strings are modelled as byte strings
    ([string] of the Standard Library, one [ascii] per byte), which is what
    Python 2 [str] is; [lower] and [isdigit] act on the ASCII letters and
    digits only.  Python integers are [Z].  A call that can raise returns a
    [result]. *)

From Stdlib Require Import Bool Arith ZArith Lia Ascii String List.
Import ListNotations.

Local Open Scope string_scope.

(** ** Errors *)

(** The exception classes of the module, the two built-in ones the code can
    raise, and [OutOfFuel], which is no Python exception: it marks the bounded
    loop of [remove_dot_segments] running out of steps, and
    [remove_dot_segments_total] shows that this never happens. *)
Inductive exn : Type :=
| InvalidScheme
| InvalidUserinfo
| InvalidHost
| InvalidPath
| InvalidQuery
| TypeError
| AttributeError
| OutOfFuel.

Inductive result (A : Type) : Type :=
| Ok (a : A)
| Raise (e : exn).

Arguments Ok {A} a.
Arguments Raise {A} e.

Definition bind {A B : Type} (r : result A) (f : A -> result B) : result B :=
  match r with
  | Ok a => f a
  | Raise e => Raise e
  end.

Notation "x <- r ;; k" := (bind r (fun x => k))
  (at level 61, r at next level, right associativity).

(** ** Python string primitives *)

Module Py.

Definition LF : ascii := "010"%char.

(** [bool(s)]: a string is true when it is not empty. *)
Definition truthy (s : string) : bool :=
  match s with
  | EmptyString => false
  | String _ _ => true
  end.

(** [s[0] == c], for a string known not to be empty. *)
Definition first_is (c : ascii) (s : string) : bool :=
  match s with
  | EmptyString => false
  | String d _ => (d =? c)%char
  end.

Fixpoint all (p : ascii -> bool) (s : string) : bool :=
  match s with
  | EmptyString => true
  | String c s' => p c && all p s'
  end.

(** [c in s] for a one-character [c]. *)
Fixpoint contains (c : ascii) (s : string) : bool :=
  match s with
  | EmptyString => false
  | String d s' => (d =? c)%char || contains c s'
  end.

Definition is_digit (c : ascii) : bool := ("0" <=? c)%char && (c <=? "9")%char.
Definition is_upper (c : ascii) : bool := ("A" <=? c)%char && (c <=? "Z")%char.
Definition is_lower (c : ascii) : bool := ("a" <=? c)%char && (c <=? "z")%char.

(** [s.isdigit()]: false on the empty string. *)
Definition isdigit (s : string) : bool := truthy s && all is_digit s.

Definition lower_char (c : ascii) : ascii :=
  if is_upper c then ascii_of_N (N_of_ascii c + 32) else c.

(** [s.lower()] *)
Fixpoint lower (s : string) : string :=
  match s with
  | EmptyString => EmptyString
  | String c s' => String (lower_char c) (lower s')
  end.

(** [s.find(c)]: the index of the first [c], or -1. *)
Fixpoint find_from (c : ascii) (s : string) (i : Z) : Z :=
  match s with
  | EmptyString => (-1)%Z
  | String d s' => if (d =? c)%char then i else find_from c s' (i + 1)%Z
  end.

Definition find (c : ascii) (s : string) : Z := find_from c s 0%Z.

(** [s.rfind(c)]: the index of the last [c], or -1. *)
Fixpoint rfind_from (c : ascii) (s : string) (i last : Z) : Z :=
  match s with
  | EmptyString => last
  | String d s' => rfind_from c s' (i + 1)%Z (if (d =? c)%char then i else last)
  end.

Definition rfind (c : ascii) (s : string) : Z := rfind_from c s 0%Z (-1)%Z.

(** A slice bound: negative bounds count from the end, all are clamped. *)
Definition clamp (len i : Z) : Z :=
  if (i <? 0)%Z then Z.max (i + len) 0 else Z.min i len.

(** [s[lo:hi]], a missing bound is [None]. *)
Definition slice (s : string) (lo hi : option Z) : string :=
  let len := Z.of_nat (String.length s) in
  let a := match lo with Some i => clamp len i | None => 0%Z end in
  let b := match hi with Some i => clamp len i | None => len end in
  substring (Z.to_nat a) (Z.to_nat (b - a)) s.

(** [s.find(c, lo, hi)]: the search is confined to [s[lo:hi]]. *)
Definition find_in (c : ascii) (s : string) (lo hi : Z) : Z :=
  let len := Z.of_nat (String.length s) in
  let r := find c (slice s (Some lo) (Some hi)) in
  if (r <? 0)%Z then (-1)%Z else (clamp len lo + r)%Z.

(** [s.rpartition(c)] *)
Definition rpartition (c : ascii) (s : string) : string * string * string :=
  let i := rfind c s in
  if (i <? 0)%Z then ("", "", s)
  else (slice s None (Some i), String c "", slice s (Some (i + 1)%Z) None).

(** [s.partition(c)] *)
Definition partition (c : ascii) (s : string) : string * string * string :=
  let i := find c s in
  if (i <? 0)%Z then (s, "", "")
  else (slice s None (Some i), String c "", slice s (Some (i + 1)%Z) None).

(** [s.split(c)]: the pieces between the occurrences of [c], at least one. *)
Fixpoint split (c : ascii) (s : string) : list string :=
  match s with
  | EmptyString => [""]
  | String d s' =>
      if (d =? c)%char then "" :: split c s'
      else match split c s' with
           | h :: t => String d h :: t
           | [] => [String d ""]
           end
  end.

Definition digit_value (c : ascii) : Z := (Z.of_N (N_of_ascii c) - 48)%Z.

Fixpoint int10_from (acc : Z) (s : string) : Z :=
  match s with
  | EmptyString => acc
  | String c s' => int10_from (acc * 10 + digit_value c)%Z s'
  end.

(** [int(s, 10)] for a string of digits. *)
Definition int10 (s : string) : Z := int10_from 0%Z s.

End Py.

(** ** Regular expressions

    The fragment of [re] that the module's patterns use, with the backtracking
    semantics of [re]: greedy repetition and option, ordered alternation,
    capture groups.  Every repetition in the source is over a character class,
    so [Star] takes one. *)

Module Re.

Inductive regex : Type :=
| Eps                              (* the empty pattern, as in [()] *)
| Chr (c : ascii)                  (* a literal character *)
| Cls (p : ascii -> bool)          (* a character class, one character *)
| Star (p : ascii -> bool)         (* [[...]*], greedy *)
| Cat (r1 r2 : regex)
| Alt (r1 r2 : regex)              (* [r1|r2] *)
| Opt (r : regex)                  (* [(?:r)?], greedy *)
| Grp (n : nat) (r : regex)        (* capture group number [n] *)
| Bol                              (* [^] *)
| Eol.                             (* [$]: at the end, or before a final newline *)

(** [[...]+] *)
Definition Plus (p : ascii -> bool) : regex := Cat (Cls p) (Star p).

Definition captures : Type := list (nat * string).
Definition cont : Type := string -> captures -> option captures.

(** What was read between the remaining input [s] and the later [s']. *)
Definition consumed (s s' : string) : string :=
  substring 0 (String.length s - String.length s') s.

Fixpoint star (p : ascii -> bool) (s : string) (g : captures) (k : cont)
  : option captures :=
  match s with
  | String c s' =>
      if p c then
        match star p s' g k with
        | Some r => Some r
        | None => k s g
        end
      else k s g
  | EmptyString => k s g
  end.

(** [exec inp r s g k]: match [r] at the suffix [s] of the subject [inp]
    with the groups [g] set so far, then continue with [k]; on failure of
    the continuation the next alternative is tried. *)
Fixpoint exec (inp : string) (r : regex) (s : string) (g : captures) (k : cont)
  : option captures :=
  match r with
  | Eps => k s g
  | Chr c =>
      match s with
      | String d s' => if (d =? c)%char then k s' g else None
      | EmptyString => None
      end
  | Cls p =>
      match s with
      | String d s' => if p d then k s' g else None
      | EmptyString => None
      end
  | Star p => star p s g k
  | Cat r1 r2 => exec inp r1 s g (fun s' g' => exec inp r2 s' g' k)
  | Alt r1 r2 =>
      match exec inp r1 s g k with
      | Some m => Some m
      | None => exec inp r2 s g k
      end
  | Opt r1 =>
      match exec inp r1 s g k with
      | Some m => Some m
      | None => k s g
      end
  | Grp n r1 => exec inp r1 s g (fun s' g' => k s' ((n, consumed s s') :: g'))
  | Bol => if (String.length s =? String.length inp)%nat then k s g else None
  | Eol =>
      if (s =? "") || (s =? String Py.LF "") then k s g else None
  end.

(** [re.compile(r).match(s)]: anchored at the start, the end is free. *)
Definition rmatch (r : regex) (s : string) : option captures :=
  exec s r s [] (fun _ g => Some g).

(** [m.group(n)] with a default for a group that did not take part. *)
Fixpoint group (n : nat) (default : string) (g : captures) : string :=
  match g with
  | [] => default
  | (m, v) :: g' => if (m =? n)%nat then v else group n default g'
  end.

(** Membership in a bracket expression given by its characters. *)
Definition one_of (set : string) : ascii -> bool := fun c => Py.contains c set.
Definition none_of (set : string) : ascii -> bool := fun c => negb (Py.contains c set).
(** [.] under [re.DOTALL] *)
Definition any : ascii -> bool := fun _ => true.
(** A class under [re.IGNORECASE]. *)
Definition icase (p : ascii -> bool) : ascii -> bool :=
  fun c => p c || p (Py.lower_char c).

End Re.

Import Re.

Infix ";;;" := Cat (at level 62, right associativity).

(** ** The URL tuple *)

Record URL : Type := mkURL {
  scheme : string;
  userinfo : string;
  host : string;
  port : string;
  path : string;
  query : string;
  fragment : string
}.

(** [URL._split_re] *)
Definition _split_re : regex :=
  Opt (Grp 1 (Plus (none_of ":/?#")) ;;; Chr ":") ;;;            (* scheme *)
  Opt (Chr "/" ;;; Chr "/" ;;;                                   (* authority *)
       Opt (Grp 2 (Star (none_of "/?#@")) ;;; Chr "@") ;;;       (* userinfo *)
       Grp 3 (Star (none_of "/?#")) ;;; Grp 4 Eps) ;;;           (* host:port *)
  Grp 5 (Star (none_of "?#")) ;;;                                (* path *)
  Opt (Chr "?") ;;; Grp 6 (Star (none_of "#")) ;;;               (* query *)
  Opt (Chr "#") ;;; Grp 7 (Star any).                            (* fragment *)

(** [m.groups('')] for the seven groups of [_split_re], as a raw 7-tuple. *)
Definition groups (g : captures) : URL :=
  mkURL (group 1 "" g) (group 2 "" g) (group 3 "" g) (group 4 "" g)
        (group 5 "" g) (group 6 "" g) (group 7 "" g).

(** The host and port of [__new__] on the parse path:
    [_port_idx = host.rfind(':')] and what follows. *)
Definition split_port (host port : string) : string * string :=
  let _port_idx := Py.rfind ":" host in
  if (0 <=? _port_idx)%Z then
    let _port := Py.slice host (Some (_port_idx + 1)%Z) None in
    if negb (Py.truthy _port) || Py.isdigit _port
    then (Py.slice host None (Some _port_idx), _port)
    else (host, port)
  else (host, port).

(** [URL.__new__]: [url] is the string to parse, or [None].  A failed match
    would make [.groups] raise [AttributeError]; [port] is a string, so
    [str(port)] is [port]. *)
Definition URL_new (url : option string)
    (scheme userinfo host port path query fragment : string) : result URL :=
  match url with
  | Some url =>
      match rmatch _split_re url with
      | None => Raise AttributeError
      | Some m =>
          let '(mkURL scheme userinfo host port path query fragment) := groups m in
          let '(host, port) := split_port host port in
          Ok (mkURL (Py.lower scheme) userinfo (Py.lower host) port path query fragment)
      end
  | None =>
      let path :=
        if Py.truthy userinfo || Py.truthy host || Py.truthy port then
          if Py.truthy path && negb (Py.first_is "/" path)
          then "/" ++ path else path
        else path in
      Ok (mkURL (Py.lower scheme) userinfo (Py.lower host) port path query fragment)
  end.

(** The two ways of calling the constructor. *)
Definition parse (s : string) : result URL := URL_new (Some s) "" "" "" "" "" "" "".

Definition build (scheme userinfo host port path query fragment : string)
  : result URL :=
  URL_new None scheme userinfo host port path query fragment.

(** ** Serialization *)

(** The [authority] property. *)
Definition authority (self : URL) : string :=
  let '(mkURL _ userinfo base port _ _ _) := self in
  let base :=
    if Py.truthy port then base ++ ":" ++ port
    else if Py.contains ":" base then
      if Py.isdigit (Py.slice base (Some (Py.rfind ":" base + 1)%Z) None)
      then base ++ ":" else base
    else base in
  if Py.truthy userinfo then userinfo ++ "@" ++ base else base.

(** The [full_path] property. *)
Definition full_path (self : URL) : string :=
  let '(mkURL _ _ _ _ path query fragment) := self in
  let path := if Py.truthy query then path ++ "?" ++ query else path in
  if Py.truthy fragment then path ++ "#" ++ fragment else path.

(** The value of [base] in [__unicode__] after the escapes and before the
    scheme is put in front. *)
Definition escape_base (self : URL) : string :=
  let scheme := self.(scheme) in
  let path := self.(path) in
  let base := authority self in
  if Py.truthy base || (Py.slice path (Some 0%Z) (Some 2%Z) =? "//") then
    "//" ++ base
  else if negb (Py.truthy scheme) && Py.truthy path then
    let column_idx := Py.find ":" path in
    if (0 <? column_idx)%Z && (Py.find_in "/" path 0 column_idx <? 0)%Z
    then "./" else base
  else base.

(** [URL.__unicode__], also [as_string] and [__str__]. *)
Definition as_string (self : URL) : string :=
  let scheme := self.(scheme) in
  let base := escape_base self in
  let base := if Py.truthy scheme then scheme ++ ":" ++ base else base in
  base ++ full_path self.

(** ** Information *)

(** [__nonzero__], [__bool__]: [any(self)]. *)
Definition URL_bool (self : URL) : bool :=
  existsb Py.truthy
    [self.(scheme); self.(userinfo); self.(host); self.(port);
     self.(path); self.(query); self.(fragment)].

Definition has_authority (self : URL) : bool :=
  Py.truthy self.(host) || Py.truthy self.(userinfo) || Py.truthy self.(port).

(** ** Validation *)

Definition _valid_scheme_re : regex :=
  Bol ;;; Cls Py.is_lower ;;;
  Star (fun c => Py.is_lower c || Py.is_digit c || one_of "+-." c) ;;; Eol.

Definition _valid_userinfo_re : regex := Bol ;;; Plus (none_of "/?#@[]") ;;; Eol.
Definition _valid_reg_name_re : regex := Bol ;;; Plus (none_of "/?#@[]:") ;;; Eol.
Definition _valid_path_re : regex := Bol ;;; Plus (none_of "?#") ;;; Eol.
Definition _valid_query_re : regex := Bol ;;; Plus (none_of "#") ;;; Eol.

Definition hex_low (c : ascii) : bool :=
  (("a" <=? c)%char && (c <=? "f")%char) || Py.is_digit c.

(** Compiled with [re.IGNORECASE]. *)
Definition _valid_ip_literal_re : regex :=
  Bol ;;;
  Alt (Cls (icase (one_of "v")) ;;; Plus (icase hex_low) ;;; Chr "." ;;;
       Plus (icase (fun c => Py.is_lower c || Py.is_digit c
                             || one_of "-._~!$&'()*,;=:" c)))
      (Plus (icase (fun c => hex_low c || one_of ":." c))) ;;;
  Eol.

(** [not regex(s)] *)
Definition no_match (r : regex) (s : string) : bool :=
  match rmatch r s with
  | Some _ => false
  | None => true
  end.

Definition validate (self : URL) : result URL :=
  _ <- (if Py.truthy self.(scheme) then
          if no_match _valid_scheme_re self.(scheme)
          then Raise InvalidScheme else Ok tt
        else Ok tt) ;;
  _ <- (if Py.truthy self.(userinfo) then
          if no_match _valid_userinfo_re self.(userinfo)
          then Raise InvalidUserinfo else Ok tt
        else Ok tt) ;;
  let host := self.(host) in
  _ <- (if Py.truthy host then
          if (Py.slice host None (Some 1%Z) =? "[")
             && (Py.slice host (Some (-1)%Z) None =? "]") then
            if no_match _valid_ip_literal_re (Py.slice host (Some 1%Z) (Some (-1)%Z))
            then Raise InvalidHost else Ok tt
          else if no_match _valid_reg_name_re host
          then Raise InvalidHost else Ok tt
        else Ok tt) ;;
  _ <- (if Py.truthy self.(path) then
          if no_match _valid_path_re self.(path)
          then Raise InvalidPath else Ok tt
        else Ok tt) ;;
  _ <- (if Py.truthy self.(query) then
          if no_match _valid_query_re self.(query)
          then Raise InvalidQuery else Ok tt
        else Ok tt) ;;
  Ok self.

(** ** Manipulation *)

(** The longest prefix of [s] whose characters satisfy [p], and the rest. *)
Fixpoint span (p : ascii -> bool) (s : string) : string * string :=
  match s with
  | EmptyString => ("", "")
  | String c s' =>
      if p c then let '(a, b) := span p s' in (String c a, b) else ("", s)
  end.

Definition not_slash (c : ascii) : bool := negb (c =? "/")%char.

(** The first path segment of the input buffer: its initial "/" if any, and
    the characters up to the next "/" or the end. *)
Definition first_segment (input : string) : string * string :=
  match input with
  | String c rest =>
      if (c =? "/")%char
      then let '(seg, rest') := span not_slash rest in (String c seg, rest')
      else span not_slash input
  | EmptyString => ("", "")
  end.

(** The output buffer without its last segment and the "/" before it. *)
Definition remove_last_segment (output : string) : string :=
  let i := Py.rfind "/" output in
  if (i <? 0)%Z then "" else Py.slice output None (Some i).

(** Modelled from the spec: [remove_dot_segments] of [yurl/utils.py], which is
    imported by [__init__.py] and is not among the sources.  The loop is the
    one of section 4.6, which the spec gives as RFC 3986 5.2.4: an input and
    an output buffer, and at each step (a) a leading "../" or "./" is
    discarded, (b) a leading "/./", or "/." as the whole input, becomes "/",
    (c) a leading "/../", or "/.." as the whole input, becomes "/" and the
    last segment of the output is removed, (d) otherwise the first segment
    moves to the output.  In (d) the segment ends before the next "/", as in
    the RFC and as the join vectors of section 8 need.  Every step shortens
    the input, so [fuel] bounds the number of steps. *)
Fixpoint rds_loop (fuel : nat) (input output : string) : option string :=
  match input with
  | EmptyString => Some output
  | String _ _ =>
      match fuel with
      | O => None
      | S fuel' =>
          if prefix "../" input then
            rds_loop fuel' (Py.slice input (Some 3%Z) None) output
          else if prefix "./" input then
            rds_loop fuel' (Py.slice input (Some 2%Z) None) output
          else if prefix "/./" input then
            rds_loop fuel' ("/" ++ Py.slice input (Some 3%Z) None) output
          else if input =? "/." then
            rds_loop fuel' "/" output
          else if prefix "/../" input then
            rds_loop fuel' ("/" ++ Py.slice input (Some 4%Z) None)
                     (remove_last_segment output)
          else if input =? "/.." then
            rds_loop fuel' "/" (remove_last_segment output)
          else
            let '(seg, rest) := first_segment input in
            rds_loop fuel' rest (output ++ seg)
      end
  end.

Definition remove_dot_segments (path : string) : option string :=
  rds_loop (String.length path) path "".

(** [URL.__add__]; [other] is a URL tuple, so the [isinstance] test passes. *)
Definition URL_add (self other : URL) : result URL :=
  let '(mkURL self0 self1 self2 self3 self4 self5 _) := self in
  let '(mkURL scheme userinfo host port path query fragment) := other in
  let '(scheme, userinfo, host, port, path, query) :=
    if negb (Py.truthy scheme) then
      let scheme := self0 in
      if negb (Py.truthy host || Py.truthy userinfo || Py.truthy port) then
        let '(userinfo, host, port) := (self1, self2, self3) in
        if negb (Py.truthy path) then
          let path := self4 in
          if negb (Py.truthy query)
          then (scheme, userinfo, host, port, path, self5)
          else (scheme, userinfo, host, port, path, query)
        else if negb (Py.first_is "/" path) then
          let '(p0, p1, _) := Py.rpartition "/" self4 in
          (scheme, userinfo, host, port, p0 ++ p1 ++ path, query)
        else (scheme, userinfo, host, port, path, query)
      else (scheme, userinfo, host, port, path, query)
    else (scheme, userinfo, host, port, path, query) in
  match remove_dot_segments path with
  | Some path => URL_new None scheme userinfo host port path query fragment
  | None => Raise OutOfFuel
  end.

(** [x or y or z] on optional arguments: [None] and the empty string are false. *)
Definition supplied_true (x : option string) : bool :=
  match x with
  | Some s => Py.truthy s
  | None => false
  end.

(** [a if x is None else x] *)
Definition or_else (x : option string) (a : string) : string :=
  match x with
  | Some s => s
  | None => a
  end.

(** [URL.replace] *)
Definition replace (self : URL)
    (scheme userinfo host port path query fragment authority full_path : option string)
  : result URL :=
  let '(mkURL self0 self1 self2 self3 self4 self5 self6) := self in
  uhp <- match authority with
         | Some authority =>
             if supplied_true host || supplied_true userinfo || supplied_true port
             then Raise TypeError
             else
               u <- parse ("//" ++ authority) ;;
               let '(mkURL _ u1 u2 u3 _ _ _) := u in
               Ok (Some u1, Some u2, Some u3)
         | None => Ok (userinfo, host, port)
         end ;;
  let '(userinfo, host, port) := uhp in
  pqf <- match full_path with
         | Some full_path =>
             if supplied_true path || supplied_true query || supplied_true fragment
             then Raise TypeError
             else
               u <- parse full_path ;;
               let '(mkURL _ _ _ _ u4 u5 u6) := u in
               Ok (Some u4, Some u5, Some u6)
         | None => Ok (path, query, fragment)
         end ;;
  let '(path, query, fragment) := pqf in
  URL_new None (or_else scheme self0) (or_else userinfo self1) (or_else host self2)
          (or_else port self3) (or_else path self4) (or_else query self5)
          (or_else fragment self6).

(** [x or y] on strings. *)
Definition str_or (x y : string) : string := if Py.truthy x then x else y.

(** [URL.setdefault] *)
Definition setdefault (self : URL)
    (scheme userinfo host port path query fragment : string) : result URL :=
  let '(mkURL self0 self1 self2 self3 self4 self5 self6) := self in
  URL_new None (str_or self0 scheme) (str_or self1 userinfo) (str_or self2 host)
          (str_or self3 port) (str_or self4 path) (str_or self5 query)
          (str_or self6 fragment).

(** [str(URL(base) + URL(rel))] *)
Definition join_str (base rel : string) : result string :=
  b <- parse base ;; r <- parse rel ;; x <- URL_add b r ;; Ok (as_string x).

(** ** The remaining properties and methods *)



(** The [username] and [authorization] properties. *)
Definition username (self : URL) : string :=
  let '(a, _, _) := Py.partition ":" self.(userinfo) in a.

Definition authorization (self : URL) : string :=
  let '(_, _, b) := Py.partition ":" self.(userinfo) in b.

Definition is_relative (self : URL) : bool := negb (Py.truthy self.(scheme)).


Definition is_host_ipv4 (self : URL) : bool :=
  if negb (Py.slice self.(host) None (Some 1%Z) =? "[") then
    let parts := Py.split "." self.(host) in
    if (List.length parts =? 4)%nat && forallb Py.isdigit parts then
      if forallb (fun part => (Py.int10 part <? 256)%Z) parts then true else false
    else false
  else false.

Definition is_host_ip (self : URL) : bool :=
  if is_host_ipv4 self then true
  else if (Py.slice self.(host) None (Some 1%Z) =? "[")
          && (Py.slice self.(host) (Some (-1)%Z) None =? "]") then true
  else false.

(** [__radd__] for a plain URL tuple on the left. *)
Definition URL_radd (self left : URL) : result URL := URL_add left self.

(** ** CachedURL

    The class attribute [_cache] is a dict shared by all calls; it is passed
    in and handed back.  A key is only stored when it is absent, so the list
    of pairs has one pair per key and its length is [len(cls._cache)]. *)

Definition cache : Type := list (string * URL).

(** [cls._cache.get(url)] *)
Fixpoint cache_get (url : string) (c : cache) : option URL :=
  match c with
  | [] => None
  | (k, v) :: c' => if (k =? url)%string then Some v else cache_get url c'
  end.

Definition _cache_size : nat := 20.

(** [CachedURL.__new__] *)
Definition CachedURL_new (c : cache) (url : option string)
    (scheme userinfo host port path query fragment : string)
  : result URL * cache :=
  match url with
  | None => (URL_new None scheme userinfo host port path query fragment, c)
  | Some url =>
      match cache_get url c with
      | Some self => (Ok self, c)
      | None =>
          let c := if (_cache_size <=? List.length c)%nat then [] else c in
          match URL_new (Some url) "" "" "" "" "" "" "" with
          | Ok self => (Ok self, (url, self) :: c)
          | Raise e => (Raise e, c)
          end
      end
  end.

(** * Definitions for the statements and the proofs *)

(** ** The split written with [span]

    [_split_re] never has to give back part of a run: every repetition is
    followed by a delimiter outside its class or by a part that always
    matches.  [split_direct] is the split written without the matcher;
    [split_re_direct] shows that the matcher computes it. *)

(** [stops p b]: a run of [p]-characters cannot be extended into [b]. *)
Definition stops (p : ascii -> bool) (b : string) : bool :=
  match b with
  | EmptyString => true
  | String c _ => negb (p c)
  end.

(** Drop a leading [c]. *)
Definition skip (c : ascii) (s : string) : string :=
  match s with
  | String d s' => if (d =? c)%char then s' else s
  | EmptyString => s
  end.

(** The scheme and what follows its ":"; no scheme when the run before the
    first delimiter is empty or does not end at a ":". *)
Definition split_scheme (s : string) : string * string :=
  let '(a, b) := span (none_of ":/?#") s in
  if Py.truthy a && Py.first_is ":" b then (a, skip ":" b) else ("", s).

(** The userinfo and what follows its "@". *)
Definition split_userinfo (s : string) : string * string :=
  let '(a, b) := span (none_of "/?#@") s in
  if Py.first_is "@" b then (a, skip "@" b) else ("", s).

(** Userinfo, host:port candidate and the rest, after a leading "//". *)
Definition split_authority (s : string) : string * string * string :=
  match s with
  | String c1 (String c2 r) =>
      if (c1 =? "/")%char && (c2 =? "/")%char then
        let '(ui, r1) := split_userinfo r in
        let '(hp, r2) := span (none_of "/?#") r1 in
        (ui, hp, r2)
      else ("", "", s)
  | _ => ("", "", s)
  end.

(** Path, query and fragment. *)
Definition split_tail (s : string) : string * string * string :=
  let '(pa, r) := span (none_of "?#") s in
  let '(q, r) := span (none_of "#") (skip "?" r) in
  (pa, q, skip "#" r).

Definition split_direct (s : string) : URL :=
  let '(sc, r) := split_scheme s in
  let '(ui, hp, r) := split_authority r in
  let '(pa, q, f) := split_tail r in
  mkURL sc ui hp "" pa q f.

(** What [__new__] does to the groups on the parse path. *)
Definition canon (t : URL) : URL :=
  let '(h, p) := split_port t.(host) t.(port) in
  mkURL (Py.lower t.(scheme)) t.(userinfo) (Py.lower h) p
        t.(path) t.(query) t.(fragment).

Arguments none_of : simpl never.
Arguments one_of : simpl never.

(** The continuation of [rmatch], and the right ends of [_split_re]. *)
Definition final : cont := fun _ g => Some g.

Definition re_fragment : regex := Opt (Chr "#") ;;; Grp 7 (Star any).

Definition re_query : regex :=
  Opt (Chr "?") ;;; Grp 6 (Star (none_of "#")) ;;; re_fragment.

Definition re_tail : regex := Grp 5 (Star (none_of "?#")) ;;; re_query.

Definition re_authority : regex :=
  Opt (Chr "/" ;;; Chr "/" ;;;
       Opt (Grp 2 (Star (none_of "/?#@")) ;;; Chr "@") ;;;
       Grp 3 (Star (none_of "/?#")) ;;; Grp 4 Eps) ;;; re_tail.

(** ** The shape of a parsed URL *)

(** The shape the split gives to the components: no component holds a
    delimiter that ends it, the port is made of digits, and a path that
    follows an authority is empty or starts with "/". *)
Record wf_split (u : URL) : Prop := {
  wf_scheme : Py.all (none_of ":/?#") u.(scheme) = true;
  wf_userinfo : Py.all (none_of "/?#@") u.(userinfo) = true;
  wf_host : Py.all (none_of "/?#") u.(host) = true;
  wf_port : Py.all Py.is_digit u.(port) = true;
  wf_path : Py.all (none_of "?#") u.(path) = true;
  wf_query : Py.all (none_of "#") u.(query) = true;
  wf_rooted : has_authority u = true ->
              u.(path) = "" \/ Py.first_is "/" u.(path) = true
}.

(** ** The pieces of the serializer *)

(** The host and port part of [authority]. *)
Definition hostport (h p : string) : string :=
  if Py.truthy p then h ++ ":" ++ p
  else if Py.contains ":" h then
    if Py.isdigit (Py.slice h (Some (Py.rfind ":" h + 1)%Z) None)
    then h ++ ":" else h
  else h.

(** What [full_path] puts after the path. *)
Definition tail_str (q f : string) : string :=
  (if Py.truthy q then "?" ++ q else "") ++ (if Py.truthy f then "#" ++ f else "").

(** One of the three characters that end an authority. *)
Definition delim3 (c : ascii) : bool :=
  (c =? "/")%char || (c =? "?")%char || (c =? "#")%char.

(** The string is empty or starts with one of "/", "?", "#". *)
Definition starts_delim (s : string) : bool :=
  match s with
  | EmptyString => true
  | String c _ => delim3 c
  end.

(** The guard of the "./" escape in [__unicode__]. *)
Definition colon_guard (path : string) : bool :=
  let column_idx := Py.find ":" path in
  (0 <? column_idx)%Z && (Py.find_in "/" path 0 column_idx <? 0)%Z.

(** [path[0:2] == '//'] by cases. *)
Definition starts_2slash (s : string) : bool :=
  match s with
  | String c1 (String c2 _) => (c1 =? "/")%char && (c2 =? "/")%char
  | _ => false
  end.

(** [host[:1] == '[' and host[-1:] == ']'] of [validate]. *)
Definition bracketed (h : string) : bool :=
  (Py.slice h None (Some 1%Z) =? "[") && (Py.slice h (Some (-1)%Z) None =? "]").

(** The class of [_valid_scheme_re] after the first letter. *)
Definition scheme_tail (c : ascii) : bool :=
  Py.is_lower c || Py.is_digit c || one_of "+-." c.

(** ** The words of the claims *)

(** The first path segment, the text before the first "/", contains ":". *)
Definition first_segment_has_colon (path : string) : bool :=
  Py.contains ":" (fst (span not_slash path)).

(** The host ends in ":", [host[-1:] == ':']. *)
Definition ends_with_colon (h : string) : bool :=
  Py.slice h (Some (-1)%Z) None =? ":".

(** The precondition of the round trip: the serializer needs neither its
    "//" escape nor its "./" escape.  The value has a non-empty authority, or
    its path does not start with "//" and, when scheme and authority are both
    empty, has no ":" in its first segment. *)
Definition no_escape_needed (u : URL) : Prop :=
  authority u <> ""
  \/ (prefix "//" u.(path) = false
      /\ (u.(scheme) = "" -> authority u = "" ->
          first_segment_has_colon u.(path) = false)).

(** The scheme grammar [a-z][a-z0-9+.-]* of the validator's contract. *)
Definition scheme_grammar (s : string) : bool :=
  match s with
  | EmptyString => false
  | String c r => Py.is_lower c && Py.all scheme_tail r
  end.

(** No character of [s] is an uppercase letter. *)
Definition no_upper (s : string) : bool := Py.all (fun c => negb (Py.is_upper c)) s.

(** The URLs the five constructing operations return. *)
Inductive produced : URL -> Prop :=
| by_parse s u : parse s = Ok u -> produced u
| by_build sc ui h p pa q f u : build sc ui h p pa q f = Ok u -> produced u
| by_join a b u : URL_add a b = Ok u -> produced u
| by_replace self sc ui h p pa q f au fp u :
    replace self sc ui h p pa q f au fp = Ok u -> produced u
| by_setdefault self sc ui h p pa q f u :
    setdefault self sc ui h p pa q f = Ok u -> produced u.

(** ** Words for the further properties *)

(** The cache holds one pair per key, each key with the URL it parses to,
    and no more pairs than [_cache_size]. *)
Definition coherent (c : cache) : Prop :=
  NoDup (map fst c)
  /\ (forall s u, In (s, u) c -> parse s = Ok u)
  /\ List.length c <= _cache_size.

(** No part of the pattern can read the character [c]. *)
Fixpoint avoids (c : ascii) (r : regex) : bool :=
  match r with
  | Eps | Bol | Eol => true
  | Chr d => negb (d =? c)%char
  | Cls p | Star p => negb (p c)
  | Cat r1 r2 | Alt r1 r2 => avoids c r1 && avoids c r2
  | Opt r1 | Grp _ r1 => avoids c r1
  end.

(** A digit or a dot. *)
Definition digit_or_dot (c : ascii) : bool := Py.is_digit c || (c =? ".")%char.

(** ** Sample URLs *)

(** [URL('http://user:pw@Host:8080/p?q#f')] *)
Definition url_user_host : URL :=
  mkURL "http" "user:pw" "host" "8080" "/p" "q" "f".



(** The URL of the scheme "a" and a newline, and the path "b". *)
Definition url_newline_scheme : URL :=
  mkURL (String "a" (String Py.LF "")) "" "" "" "b" "" "".

(** [URL('h')] *)
Definition url_path_h : URL := mkURL "" "" "" "" "h" "" "".

(** * Properties *)

(** ** Strings *)

Lemma append_nil_r (s : string) : s ++ "" = s.
Proof. induction s as [|c s IH]; simpl; [reflexivity | now rewrite IH]. Qed.

Lemma append_assoc (a b c : string) : (a ++ b) ++ c = a ++ b ++ c.
Proof. induction a as [|x a IH]; simpl; [reflexivity | now rewrite IH]. Qed.

Lemma length_append (a b : string) :
  String.length (a ++ b) = String.length a + String.length b.
Proof. induction a as [|x a IH]; simpl; [reflexivity | now rewrite IH]. Qed.

Lemma substring_0_append (a b : string) :
  substring 0 (String.length a) (a ++ b) = a.
Proof.
  induction a as [|x a IH]; simpl.
  - now destruct b.
  - now rewrite IH.
Qed.

Lemma substring_skip_append (a b : string) (m : nat) :
  substring (String.length a) m (a ++ b) = substring 0 m b.
Proof. induction a as [|x a IH]; simpl; [reflexivity | exact IH]. Qed.

Lemma substring_0_all (s : string) : substring 0 (String.length s) s = s.
Proof. induction s as [|x s IH]; simpl; [reflexivity | now rewrite IH]. Qed.

Lemma consumed_append (a b : string) : consumed (a ++ b) b = a.
Proof.
  unfold consumed. rewrite length_append.
  replace (String.length a + String.length b - String.length b)
    with (String.length a) by lia.
  apply substring_0_append.
Qed.

Lemma all_append (p : ascii -> bool) (a b : string) :
  Py.all p (a ++ b) = Py.all p a && Py.all p b.
Proof.
  induction a as [|x a IH]; simpl; [reflexivity |].
  now rewrite IH, andb_assoc.
Qed.

Lemma span_spec (p : ascii -> bool) (s : string) :
  s = fst (span p s) ++ snd (span p s)
  /\ Py.all p (fst (span p s)) = true
  /\ stops p (snd (span p s)) = true.
Proof.
  induction s as [|c s IH]; simpl.
  - auto.
  - destruct (p c) eqn:E.
    + destruct (span p s) as [a b]; simpl in *.
      destruct IH as (H1 & H2 & H3). rewrite E, H2. repeat split; auto.
      now rewrite <- H1.
    + simpl. rewrite E. auto.
Qed.

Lemma span_append (p : ascii -> bool) (a b : string) :
  Py.all p a = true -> stops p b = true -> span p (a ++ b) = (a, b).
Proof.
  intros Ha Hb. induction a as [|c a IH]; simpl in *.
  - destruct b as [|d b]; simpl in *; [reflexivity |].
    apply negb_true_iff in Hb. now rewrite Hb.
  - apply andb_true_iff in Ha as [Hc Ha]. rewrite Hc, (IH Ha). reflexivity.
Qed.

(** ** The matcher on a greedy repetition *)

(** When the continuation succeeds after the longest run, that is the match. *)
Lemma star_greedy (p : ascii -> bool) (k : cont) (g r : captures) (s : string) :
  k (snd (span p s)) g = Some r -> star p s g k = Some r.
Proof.
  induction s as [|c s IH]; simpl; intros H; [exact H |].
  destruct (p c); [| exact H].
  destruct (span p s) as [a b]; simpl in *. now rewrite (IH H).
Qed.

(** When the continuation cannot start on a character of the class, only the
    longest run is left to try. *)
Lemma star_longest (p : ascii -> bool) (k : cont) (g : captures) (s : string) :
  (forall c s', p c = true -> k (String c s') g = None) ->
  star p s g k = k (snd (span p s)) g.
Proof.
  intros Hk. induction s as [|c s IH]; simpl; [reflexivity |].
  destruct (p c) eqn:E; [| reflexivity].
  rewrite IH. destruct (span p s) as [a b]; simpl.
  destruct (k b g); [reflexivity | now apply Hk].
Qed.

(** ** The matcher computes the direct split *)

Lemma none_of_cons (x c : ascii) (set : string) :
  none_of (String x set) c = negb (x =? c)%char && none_of set c.
Proof. unfold none_of; simpl. apply negb_orb. Qed.

Lemma none_of_excl (set : string) (c : ascii) :
  Py.contains c set = true -> none_of set c = false.
Proof. unfold none_of. now intros ->. Qed.

Lemma consumed_span (p : ascii -> bool) (s : string) :
  consumed s (snd (span p s)) = fst (span p s).
Proof.
  destruct (span_spec p s) as (H & _ & _).
  rewrite H at 1. apply consumed_append.
Qed.

Lemma consumed_span_cons (p : ascii -> bool) (d : ascii) (s : string) :
  consumed (String d s) (snd (span p s)) = String d (fst (span p s)).
Proof.
  destruct (span_spec p s) as (H & _ & _).
  rewrite H at 1. apply (consumed_append (String d (fst (span p s)))).
Qed.

Lemma span_any (s : string) : span any s = (s, "").
Proof. induction s as [|c s IH]; simpl; [reflexivity | now rewrite IH]. Qed.

Section ExecEquations.
Variables (inp : string) (g : captures) (k : cont).

Lemma exec_Cat r1 r2 s :
  exec inp (r1 ;;; r2) s g k = exec inp r1 s g (fun s' g' => exec inp r2 s' g' k).
Proof. reflexivity. Qed.

Lemma exec_Opt r s :
  exec inp (Opt r) s g k =
  match exec inp r s g k with Some m => Some m | None => k s g end.
Proof. reflexivity. Qed.

Lemma exec_Chr c s :
  exec inp (Chr c) s g k = if Py.first_is c s then k (skip c s) g else None.
Proof. destruct s as [|d s]; simpl; [reflexivity | now destruct (d =? c)%char]. Qed.

Lemma exec_Grp_Star n p s :
  exec inp (Grp n (Star p)) s g k =
  star p s g (fun s' g' => k s' ((n, consumed s s') :: g')).
Proof. reflexivity. Qed.
End ExecEquations.

Lemma skip_other (c : ascii) (s : string) : Py.first_is c s = false -> skip c s = s.
Proof. destruct s as [|d s]; simpl; [reflexivity | now intros ->]. Qed.

Lemma exec_group7 (inp s : string) (g : captures) :
  exec inp (Grp 7 (Star any)) s g final = Some ((7, s) :: g).
Proof.
  rewrite exec_Grp_Star. apply star_greedy. rewrite span_any; simpl.
  unfold final, consumed. simpl. rewrite Nat.sub_0_r, substring_0_all. reflexivity.
Qed.

Lemma exec_fragment (inp s : string) (g : captures) :
  exec inp re_fragment s g final = Some ((7, skip "#" s) :: g).
Proof.
  unfold re_fragment. rewrite exec_Cat, exec_Opt, exec_Chr.
  destruct (Py.first_is "#" s) eqn:E; rewrite exec_group7; [reflexivity |].
  now rewrite (skip_other _ _ E).
Qed.

Lemma exec_query (inp s : string) (g : captures) :
  exec inp re_query s g final =
  Some ((7, skip "#" (snd (span (none_of "#") (skip "?" s))))
          :: (6, fst (span (none_of "#") (skip "?" s))) :: g).
Proof.
  assert (H : forall t g0,
             exec inp (Grp 6 (Star (none_of "#")) ;;; re_fragment) t g0 final
             = Some ((7, skip "#" (snd (span (none_of "#") t)))
                       :: (6, fst (span (none_of "#") t)) :: g0)).
  { intros t g0. rewrite exec_Cat, exec_Grp_Star. apply star_greedy.
    rewrite exec_fragment, consumed_span. reflexivity. }
  unfold re_query. rewrite exec_Cat, exec_Opt, exec_Chr.
  destruct (Py.first_is "?" s) eqn:E; rewrite H; [reflexivity |].
  now rewrite (skip_other _ _ E).
Qed.

Lemma exec_tail (inp s : string) (g : captures) :
  exec inp re_tail s g final =
  let '(pa, q, f) := split_tail s in Some ((7, f) :: (6, q) :: (5, pa) :: g).
Proof.
  unfold re_tail, split_tail. rewrite exec_Cat, exec_Grp_Star.
  rewrite (star_greedy _ _ _
             ((7, skip "#" (snd (span (none_of "#") (skip "?" (snd (span (none_of "?#") s))))))
                :: (6, fst (span (none_of "#") (skip "?" (snd (span (none_of "?#") s)))))
                :: (5, fst (span (none_of "?#") s)) :: g)).
  - destruct (span (none_of "?#") s) as [pa r]; simpl.
    destruct (span (none_of "#") (skip "?" r)) as [q r']; reflexivity.
  - rewrite exec_query, consumed_span. reflexivity.
Qed.

Lemma none_of_first_is (set : string) (c x : ascii) (s : string) :
  none_of set c = true -> Py.contains x set = true ->
  Py.first_is x (String c s) = false.
Proof.
  unfold none_of; simpl. intros Hc Hx.
  destruct (c =? x)%char eqn:E; [| reflexivity].
  apply Ascii.eqb_eq in E; subst. now rewrite Hx in Hc.
Qed.

Lemma consumed_same (s : string) : consumed s s = "".
Proof. unfold consumed. rewrite Nat.sub_diag. now destruct s. Qed.

Lemma exec_Grp_Plus (inp : string) (n : nat) (p : ascii -> bool) (s : string)
    (g : captures) (k : cont) :
  exec inp (Grp n (Plus p)) s g k =
  match s with
  | String d s1 =>
      if p d then star p s1 g (fun s' g' => k s' ((n, consumed s s') :: g')) else None
  | EmptyString => None
  end.
Proof. now destruct s. Qed.

(** An optional part that ends in a delimiter outside the class of its
    repetition is taken exactly when the delimiter follows the longest run,
    provided the rest of the pattern cannot fail. *)
Lemma exec_opt_star_delim (inp : string) (n : nat) (set : string) (c : ascii)
    (R : regex) (s : string) (g : captures) (K : cont) :
  Py.contains c set = true ->
  (forall s' g', exec inp R s' g' K <> None) ->
  exec inp (Opt (Grp n (Star (none_of set)) ;;; Chr c) ;;; R) s g K =
  if Py.first_is c (snd (span (none_of set) s))
  then exec inp R (skip c (snd (span (none_of set) s)))
            ((n, fst (span (none_of set) s)) :: g) K
  else exec inp R s g K.
Proof.
  intros Hc HR.
  rewrite exec_Cat, exec_Opt, exec_Cat, exec_Grp_Star, star_longest.
  - rewrite exec_Chr, consumed_span.
    destruct (Py.first_is c (snd (span (none_of set) s))); [| reflexivity].
    destruct (exec inp R _ _ K) eqn:E; [reflexivity | now apply HR in E].
  - intros d s' Hd. rewrite exec_Chr.
    now rewrite (none_of_first_is set d c s' Hd Hc).
Qed.

Lemma exec_opt_plus_delim (inp : string) (n : nat) (set : string) (c : ascii)
    (R : regex) (s : string) (g : captures) (K : cont) :
  Py.contains c set = true ->
  (forall s' g', exec inp R s' g' K <> None) ->
  exec inp (Opt (Grp n (Plus (none_of set)) ;;; Chr c) ;;; R) s g K =
  if Py.truthy (fst (span (none_of set) s))
     && Py.first_is c (snd (span (none_of set) s))
  then exec inp R (skip c (snd (span (none_of set) s)))
            ((n, fst (span (none_of set) s)) :: g) K
  else exec inp R s g K.
Proof.
  intros Hc HR.
  rewrite exec_Cat, exec_Opt, exec_Cat, exec_Grp_Plus.
  destruct s as [|d s1]; [reflexivity |].
  cbn [span]. destruct (none_of set d) eqn:Ed; [| reflexivity].
  rewrite star_longest.
  - rewrite exec_Chr, consumed_span_cons.
    destruct (span (none_of set) s1) as [a b]; cbn [fst snd Py.truthy andb].
    destruct (Py.first_is c b); [| reflexivity].
    destruct (exec inp R _ _ K) eqn:E; [reflexivity | now apply HR in E].
  - intros e s' He. rewrite exec_Chr.
    now rewrite (none_of_first_is set e c s' He Hc).
Qed.

Lemma exec_tail_some (inp s : string) (g : captures) :
  exec inp re_tail s g final <> None.
Proof.
  rewrite exec_tail. destruct (split_tail s) as [[pa q] f]. discriminate.
Qed.

Lemma groups_tail (sc ui hp po pa q f : string) (g : captures) :
  groups g = mkURL sc ui hp po "" "" "" ->
  groups ((7, f) :: (6, q) :: (5, pa) :: g) = mkURL sc ui hp po pa q f.
Proof. unfold groups; simpl. now intros [= -> -> -> ->]. Qed.

Lemma exec_host (inp s : string) (g : captures) :
  exec inp (Grp 3 (Star (none_of "/?#")) ;;; Grp 4 Eps) s g
       (fun s' g' => exec inp re_tail s' g' final) =
  exec inp re_tail (snd (span (none_of "/?#") s))
       ((4, "") :: (3, fst (span (none_of "/?#") s)) :: g) final.
Proof.
  rewrite exec_Cat, exec_Grp_Star.
  destruct (exec inp re_tail (snd (span (none_of "/?#") s))
                 ((4, "") :: (3, fst (span (none_of "/?#") s)) :: g) final) eqn:E.
  - apply star_greedy. cbn [exec]. now rewrite consumed_same, consumed_span.
  - now apply exec_tail_some in E.
Qed.

(** The authority block and what follows it. *)
Lemma exec_authority (inp s : string) (g : captures) :
  exists m, exec inp re_authority s g final = Some m
            /\ forall sc, groups g = mkURL sc "" "" "" "" "" "" ->
                 groups m = (let '(ui, hp, r) := split_authority s in
                             let '(pa, q, f) := split_tail r in
                             mkURL sc ui hp "" pa q f).
Proof.
  assert (Hno : exists m, exec inp re_tail s g final = Some m
                  /\ forall sc, groups g = mkURL sc "" "" "" "" "" "" ->
                       groups m = (let '(pa, q, f) := split_tail s in
                                   mkURL sc "" "" "" pa q f)).
  { rewrite exec_tail. destruct (split_tail s) as [[pa q] f].
    eexists; split; [reflexivity | intros sc Hg; now apply groups_tail]. }
  unfold re_authority. rewrite exec_Cat, exec_Opt, exec_Cat, exec_Chr.
  unfold split_authority.
  destruct s as [|c1 s1]; [exact Hno |].
  cbn [Py.first_is skip]. destruct (c1 =? "/")%char eqn:E1; cbn [andb];
    [| destruct s1; exact Hno].
  rewrite exec_Cat, exec_Chr.
  destruct s1 as [|c2 r]; [exact Hno |].
  cbn [Py.first_is skip]. destruct (c2 =? "/")%char eqn:E2; [| exact Hno].
  rewrite exec_opt_star_delim; [| reflexivity |].
  2:{ intros s' g'. rewrite exec_host. apply exec_tail_some. }
  unfold split_userinfo.
  destruct (span (none_of "/?#@") r) as [a b]; cbn [fst snd].
  destruct (Py.first_is "@" b).
  - rewrite exec_host, exec_tail.
    destruct (span (none_of "/?#") (skip "@" b)) as [hp r2]; cbn [fst snd].
    destruct (split_tail r2) as [[pa q] f].
    eexists; split; [reflexivity | intros sc Hg].
    apply groups_tail. clear Hno. unfold groups in Hg |- *; simpl in Hg |- *.
    injection Hg; intros; congruence.
  - rewrite exec_host, exec_tail.
    destruct (span (none_of "/?#") r) as [hp r2]; cbn [fst snd].
    destruct (split_tail r2) as [[pa q] f].
    eexists; split; [reflexivity | intros sc Hg].
    apply groups_tail. clear Hno. unfold groups in Hg |- *; simpl in Hg |- *.
    injection Hg; intros; congruence.
Qed.

(** [_split_re] matches every string, and its groups are [split_direct]. *)
Lemma split_re_direct (s : string) :
  exists m, rmatch _split_re s = Some m /\ groups m = split_direct s.
Proof.
  change (rmatch _split_re s)
    with (exec s (Opt (Grp 1 (Plus (none_of ":/?#")) ;;; Chr ":") ;;; re_authority)
               s [] final).
  rewrite exec_opt_plus_delim; [| reflexivity |].
  2:{ intros s' g'. destruct (exec_authority s s' g') as (m & -> & _). discriminate. }
  unfold split_direct, split_scheme.
  destruct (span (none_of ":/?#") s) as [a b]; cbn [fst snd].
  destruct (Py.truthy a && Py.first_is ":" b).
  - destruct (exec_authority s (skip ":" b) [(1, a)]) as (m & Hm & Hg).
    exists m; split; [exact Hm |]. rewrite (Hg a eq_refl).
    destruct (split_authority (skip ":" b)) as [[ui hp] r].
    now destruct (split_tail r) as [[pa q] f].
  - destruct (exec_authority s s []) as (m & Hm & Hg).
    exists m; split; [exact Hm |]. rewrite (Hg "" eq_refl).
    destruct (split_authority s) as [[ui hp] r].
    now destruct (split_tail r) as [[pa q] f].
Qed.

(** ** [rfind], slices and the port *)

Lemma rfind_from_absent (c : ascii) (s : string) (i last : Z) :
  Py.contains c s = false -> Py.rfind_from c s i last = last.
Proof.
  revert i last. induction s as [|d s IH]; simpl; intros i last H; [reflexivity |].
  apply orb_false_iff in H as [Hd Hs]. rewrite Hd. now apply IH.
Qed.

Lemma rfind_from_last (c : ascii) (a b : string) (i last : Z) :
  Py.contains c b = false ->
  Py.rfind_from c (a ++ String c b) i last = (i + Z.of_nat (String.length a))%Z.
Proof.
  intros Hb. revert i last. induction a as [|d a IH]; intros i last.
  - simpl. rewrite Ascii.eqb_refl, rfind_from_absent by assumption. lia.
  - cbn [append Py.rfind_from String.length]. rewrite IH. lia.
Qed.

Lemma rfind_absent (c : ascii) (s : string) :
  Py.contains c s = false -> Py.rfind c s = (-1)%Z.
Proof. apply rfind_from_absent. Qed.

Lemma rfind_last (c : ascii) (a b : string) :
  Py.contains c b = false ->
  Py.rfind c (a ++ String c b) = Z.of_nat (String.length a).
Proof. intros H. unfold Py.rfind. now rewrite rfind_from_last. Qed.

(** A string that contains [c] splits at its last [c]. *)
Lemma contains_split_last (c : ascii) (s : string) :
  Py.contains c s = true ->
  exists a b, s = a ++ String c b /\ Py.contains c b = false.
Proof.
  induction s as [|d s IH]; simpl; [discriminate |].
  destruct (Py.contains c s) eqn:Es.
  - intros _. destruct (IH eq_refl) as (a & b & -> & Hb).
    now exists (String d a), b.
  - rewrite orb_false_r. intros Hd. apply Ascii.eqb_eq in Hd; subst.
    now exists "", s.
Qed.

Lemma contains_append (c : ascii) (a b : string) :
  Py.contains c (a ++ b) = Py.contains c a || Py.contains c b.
Proof.
  induction a as [|d a IH]; simpl; [reflexivity |].
  now rewrite IH, orb_assoc.
Qed.

Lemma slice_to_append (a b : string) :
  Py.slice (a ++ b) None (Some (Z.of_nat (String.length a))) = a.
Proof.
  unfold Py.slice, Py.clamp. rewrite length_append.
  destruct (Z.ltb_spec (Z.of_nat (String.length a)) 0); [lia |].
  rewrite Z.min_l by lia. rewrite Z.sub_0_r, Nat2Z.id. simpl Z.to_nat.
  apply substring_0_append.
Qed.

Lemma slice_from_append (a b : string) :
  Py.slice (a ++ b) (Some (Z.of_nat (String.length a))) None = b.
Proof.
  unfold Py.slice, Py.clamp. rewrite length_append.
  destruct (Z.ltb_spec (Z.of_nat (String.length a)) 0); [lia |].
  rewrite Z.min_l by lia. rewrite Nat2Z.id.
  replace (Z.to_nat (Z.of_nat (String.length a + String.length b)
                     - Z.of_nat (String.length a)))
    with (String.length b) by lia.
  rewrite substring_skip_append. apply substring_0_all.
Qed.

Lemma slice_after_append (a b : string) (c : ascii) :
  Py.slice (a ++ String c b) (Some (Z.of_nat (String.length a) + 1)%Z) None = b.
Proof.
  replace (a ++ String c b) with ((a ++ String c "") ++ b)
    by now rewrite append_assoc.
  replace (Z.of_nat (String.length a) + 1)%Z
    with (Z.of_nat (String.length (a ++ String c ""))).
  - apply slice_from_append.
  - rewrite length_append. simpl. lia.
Qed.

(** [split_port] on a candidate without ":" and on one cut at its last ":". *)
Lemma split_port_absent (h p : string) :
  Py.contains ":" h = false -> split_port h p = (h, p).
Proof. intros H. unfold split_port. now rewrite rfind_absent. Qed.

Lemma split_port_last (a b p : string) :
  Py.contains ":" b = false ->
  split_port (a ++ String ":" b) p =
  if negb (Py.truthy b) || Py.isdigit b then (a, b) else (a ++ String ":" b, p).
Proof.
  intros H. unfold split_port. rewrite rfind_last by assumption.
  destruct (Z.leb_spec 0 (Z.of_nat (String.length a))); [| lia].
  now rewrite slice_after_append, slice_to_append.
Qed.

(** Parsing never fails: it is the direct split, the port cut off the host,
    and the two lowercasings. *)
Lemma parse_direct (s : string) : parse s = Ok (canon (split_direct s)).
Proof.
  unfold parse, URL_new.
  destruct (split_re_direct s) as (m & -> & Hm). rewrite Hm.
  unfold canon. destruct (split_direct s) as [sc ui h p pa q f]; cbn [host port].
  now destruct (split_port h p).
Qed.

(** ** What a parsed URL looks like *)

Lemma lower_char_idem (c : ascii) : Py.lower_char (Py.lower_char c) = Py.lower_char c.
Proof. destruct c as [[] [] [] [] [] [] [] []]; reflexivity. Qed.

Lemma lower_char_not_upper (c : ascii) : Py.is_upper (Py.lower_char c) = false.
Proof. destruct c as [[] [] [] [] [] [] [] []]; reflexivity. Qed.

Lemma lower_char_scheme_class (c : ascii) :
  none_of ":/?#" (Py.lower_char c) = none_of ":/?#" c.
Proof. destruct c as [[] [] [] [] [] [] [] []]; reflexivity. Qed.

Lemma lower_char_host_class (c : ascii) :
  none_of "/?#" (Py.lower_char c) = none_of "/?#" c.
Proof. destruct c as [[] [] [] [] [] [] [] []]; reflexivity. Qed.

Lemma lower_idem (s : string) : Py.lower (Py.lower s) = Py.lower s.
Proof.
  induction s as [|c s IH]; simpl; [reflexivity |].
  now rewrite lower_char_idem, IH.
Qed.

Lemma all_lower (p : ascii -> bool) (s : string) :
  (forall c, p (Py.lower_char c) = p c) -> Py.all p (Py.lower s) = Py.all p s.
Proof.
  intros H. induction s as [|c s IH]; simpl; [reflexivity |].
  now rewrite H, IH.
Qed.

Lemma span_fst_all (p : ascii -> bool) (s : string) : Py.all p (fst (span p s)) = true.
Proof. apply span_spec. Qed.

Lemma span_snd_stops (p : ascii -> bool) (s : string) : stops p (snd (span p s)) = true.
Proof. apply span_spec. Qed.

Lemma split_scheme_all (s : string) :
  Py.all (none_of ":/?#") (fst (split_scheme s)) = true.
Proof.
  unfold split_scheme. pose proof (span_fst_all (none_of ":/?#") s) as H.
  destruct (span (none_of ":/?#") s) as [a b]; simpl in H.
  now destruct (Py.truthy a && Py.first_is ":" b).
Qed.

Lemma split_userinfo_all (s : string) :
  Py.all (none_of "/?#@") (fst (split_userinfo s)) = true.
Proof.
  unfold split_userinfo. pose proof (span_fst_all (none_of "/?#@") s) as H.
  destruct (span (none_of "/?#@") s) as [a b]; simpl in H.
  now destruct (Py.first_is "@" b).
Qed.

(** What remains after the host candidate starts a path at "/" or leaves it
    empty. *)
Lemma path_after_host (r : string) :
  stops (none_of "/?#") r = true ->
  fst (span (none_of "?#") r) = ""
  \/ Py.first_is "/" (fst (span (none_of "?#") r)) = true.
Proof.
  destruct r as [|c r]; [now left |].
  cbn [stops span]. intros H. apply negb_true_iff in H.
  destruct (none_of "?#" c) eqn:E; [| now left].
  right. destruct (span (none_of "?#") r) as [a b]; cbn [fst Py.first_is].
  rewrite !none_of_cons in H. rewrite !none_of_cons in E.
  destruct (c =? "/")%char eqn:E1; [reflexivity |].
  rewrite Ascii.eqb_sym, E1 in H. cbn [negb andb] in H.
  now rewrite H in E.
Qed.

Lemma split_authority_wf (s : string) :
  let '(ui, hp, r) := split_authority s in
  Py.all (none_of "/?#@") ui = true
  /\ Py.all (none_of "/?#") hp = true
  /\ (Py.truthy hp || Py.truthy ui = true ->
      fst (span (none_of "?#") r) = ""
      \/ Py.first_is "/" (fst (span (none_of "?#") r)) = true).
Proof.
  unfold split_authority.
  destruct s as [|c1 [|c2 r]]; try (repeat split; discriminate || reflexivity).
  destruct ((c1 =? "/")%char && (c2 =? "/")%char);
    [| repeat split; discriminate || reflexivity].
  pose proof (split_userinfo_all r) as Hu.
  destruct (split_userinfo r) as [ui r1]; simpl in Hu.
  pose proof (span_fst_all (none_of "/?#") r1) as Hh.
  pose proof (span_snd_stops (none_of "/?#") r1) as Hs.
  destruct (span (none_of "/?#") r1) as [hp r2]; simpl in Hh, Hs.
  repeat split; auto. intros _. now apply path_after_host.
Qed.

Lemma split_tail_wf (s : string) :
  let '(pa, q, f) := split_tail s in
  pa = fst (span (none_of "?#") s)
  /\ Py.all (none_of "?#") pa = true /\ Py.all (none_of "#") q = true.
Proof.
  unfold split_tail.
  pose proof (span_fst_all (none_of "?#") s) as Hp.
  destruct (span (none_of "?#") s) as [pa r]; simpl in Hp.
  pose proof (span_fst_all (none_of "#") (skip "?" r)) as Hq.
  destruct (span (none_of "#") (skip "?" r)) as [q r']; simpl in Hq.
  auto.
Qed.

Lemma split_direct_wf (s : string) :
  wf_split (split_direct s) /\ (split_direct s).(port) = "".
Proof.
  unfold split_direct.
  pose proof (split_scheme_all s) as Hsc.
  destruct (split_scheme s) as [sc r]; simpl in Hsc.
  pose proof (split_authority_wf r) as Ha.
  destruct (split_authority r) as [[ui hp] r1]. destruct Ha as (Hu & Hh & Hr).
  pose proof (split_tail_wf r1) as Ht.
  destruct (split_tail r1) as [[pa q] f]. destruct Ht as (Hpa & Hp & Hq).
  split; [| reflexivity].
  constructor; cbn [scheme userinfo host port path query]; auto.
  unfold has_authority; cbn [host userinfo port path Py.truthy].
  rewrite orb_false_r, Hpa. exact Hr.
Qed.

Lemma truthy_lower (s : string) : Py.truthy (Py.lower s) = Py.truthy s.
Proof. now destruct s. Qed.

Lemma truthy_false (s : string) : Py.truthy s = false -> s = "".
Proof. now destruct s. Qed.

Lemma truthy_append (a b : string) : Py.truthy (a ++ b) = Py.truthy a || Py.truthy b.
Proof. now destruct a. Qed.

(** The two outcomes of the port step. *)
Lemma split_port_cases (h : string) :
  split_port h "" = (h, "")
  \/ exists a b, h = a ++ String ":" b /\ Py.contains ":" b = false
                 /\ (b = "" \/ Py.isdigit b = true) /\ split_port h "" = (a, b).
Proof.
  destruct (Py.contains ":" h) eqn:E.
  - destruct (contains_split_last _ _ E) as (a & b & -> & Hb).
    rewrite split_port_last by assumption.
    destruct b as [|c b]; [right; exists a, ""; auto |].
    cbn [Py.truthy negb orb].
    destruct (Py.isdigit (String c b)) eqn:Ed; [| now left].
    right. exists a, (String c b). auto.
  - left. now apply split_port_absent.
Qed.

Lemma canon_wf (t : URL) :
  wf_split t -> t.(port) = "" -> wf_split (canon t).
Proof.
  intros [Hsc Hui Hh _ Hpa Hq Hr] Hp. unfold canon. rewrite Hp.
  assert (Hroot : Py.truthy t.(host) || Py.truthy t.(userinfo) = true ->
                  t.(path) = "" \/ Py.first_is "/" t.(path) = true).
  { intros H. apply Hr. unfold has_authority. now rewrite H. }
  destruct (split_port_cases t.(host)) as [-> | (a & b & Eh & Hb & Hd & ->)].
  - constructor; cbn [scheme userinfo host port path query]; auto.
    + now rewrite all_lower by apply lower_char_scheme_class.
    + now rewrite all_lower by apply lower_char_host_class.
    + unfold has_authority; cbn [host userinfo port path Py.truthy].
      rewrite orb_false_r, truthy_lower. exact Hroot.
  - rewrite Eh, all_append in Hh. apply andb_true_iff in Hh as [Ha _].
    constructor; cbn [scheme userinfo host port path query]; auto.
    + now rewrite all_lower by apply lower_char_scheme_class.
    + now rewrite all_lower by apply lower_char_host_class.
    + destruct Hd as [-> | Hd]; [reflexivity |].
      unfold Py.isdigit in Hd. now apply andb_true_iff in Hd.
    + intros _. apply Hroot. rewrite Eh, truthy_append. cbn [Py.truthy].
      now rewrite orb_true_r.
Qed.

Lemma parse_wf (s : string) (u : URL) : parse s = Ok u -> wf_split u.
Proof.
  rewrite parse_direct. intros [= <-].
  destruct (split_direct_wf s). now apply canon_wf.
Qed.

Lemma canon_lower (t : URL) :
  Py.lower (canon t).(scheme) = (canon t).(scheme)
  /\ Py.lower (canon t).(host) = (canon t).(host).
Proof.
  unfold canon. destruct (split_port t.(host) t.(port)) as [h p]; simpl.
  now rewrite !lower_idem.
Qed.

(** ** The serializer, piece by piece *)

Lemma authority_hostport (u : URL) :
  authority u =
  if Py.truthy u.(userinfo)
  then u.(userinfo) ++ "@" ++ hostport u.(host) u.(port)
  else hostport u.(host) u.(port).
Proof. now destruct u. Qed.

Lemma authority_empty (u : URL) :
  Py.truthy (authority u) = has_authority u.
Proof.
  rewrite authority_hostport. unfold has_authority, hostport.
  destruct u as [sc ui h p pa q f]; cbn [userinfo host port].
  destruct ui as [|c ui]; [| now rewrite orb_true_r].
  cbn [Py.truthy]. rewrite orb_false_r.
  destruct p as [|d p]; cbn [Py.truthy].
  - rewrite orb_false_r.
    destruct (Py.contains ":" h) eqn:E; [| reflexivity].
    destruct (Py.isdigit _); [| reflexivity].
    rewrite truthy_append. now destruct h.
  - rewrite truthy_append. simpl. now rewrite !orb_true_r.
Qed.

Lemma full_path_tail (u : URL) :
  full_path u = u.(path) ++ tail_str u.(query) u.(fragment).
Proof.
  destruct u as [sc ui h p pa q f]; unfold full_path, tail_str; cbn [path query fragment].
  destruct (Py.truthy q), (Py.truthy f); cbn [append];
    rewrite ?append_assoc, ?append_nil_r; reflexivity.
Qed.

Lemma delim3_cases (c : ascii) :
  delim3 c = true -> c = "/"%char \/ c = "?"%char \/ c = "#"%char.
Proof.
  unfold delim3. intros H.
  apply orb_true_iff in H as [H | H]; [apply orb_true_iff in H as [H | H] |];
    apply Ascii.eqb_eq in H; auto.
Qed.

Lemma starts_delim_stops (set : string) (s : string) :
  Py.contains "/" set = true -> Py.contains "?" set = true ->
  Py.contains "#" set = true ->
  starts_delim s = true -> stops (none_of set) s = true.
Proof.
  intros H1 H2 H3. destruct s as [|c s]; [reflexivity |].
  cbn [starts_delim stops]. intros H. unfold none_of.
  destruct (delim3_cases c H) as [-> | [-> | ->]]; now rewrite ?H1, ?H2, ?H3.
Qed.

Lemma starts_delim_first (x : ascii) (s : string) :
  delim3 x = false -> starts_delim s = true -> Py.first_is x s = false.
Proof.
  destruct s as [|c s]; [reflexivity |]. cbn [starts_delim Py.first_is].
  intros Hx Hc. destruct (c =? x)%char eqn:E; [| reflexivity].
  apply Ascii.eqb_eq in E; subst. now rewrite Hc in Hx.
Qed.

Lemma tail_str_delim (q f : string) : starts_delim (tail_str q f) = true.
Proof. unfold tail_str. now destruct (Py.truthy q), (Py.truthy f). Qed.

Lemma full_path_delim (u : URL) :
  u.(path) = "" \/ Py.first_is "/" u.(path) = true ->
  starts_delim (full_path u) = true.
Proof.
  rewrite full_path_tail. intros [-> | H].
  - apply tail_str_delim.
  - destruct u.(path) as [|c pa]; [discriminate |].
    cbn [Py.first_is] in H. cbn [append starts_delim]. unfold delim3. now rewrite H.
Qed.

Lemma split_tail_tail_str (pa q f : string) :
  Py.all (none_of "?#") pa = true -> Py.all (none_of "#") q = true ->
  split_tail (pa ++ tail_str q f) = (pa, q, f).
Proof.
  intros Hp Hq. unfold split_tail.
  rewrite (span_append _ pa (tail_str q f) Hp).
  2:{ unfold tail_str. now destruct q, f. }
  set (X := if Py.truthy f then "#" ++ f else "").
  assert (E : skip "?" (tail_str q f) = q ++ X).
  { unfold tail_str. fold X. destruct q; [| reflexivity].
    subst X. now destruct f. }
  rewrite E, (span_append _ q X Hq).
  - subst X. now destruct f.
  - subst X. now destruct f.
Qed.

Lemma slice_last_append (a : string) (c : ascii) :
  Py.slice (a ++ String c "") (Some (-1)%Z) None = String c "".
Proof.
  unfold Py.slice, Py.clamp. cbn [Z.ltb Z.compare]. rewrite length_append.
  cbn [String.length].
  replace (Z.to_nat (Z.max (-1 + Z.of_nat (String.length a + 1)) 0))
    with (String.length a) by lia.
  replace (Z.to_nat (Z.of_nat (String.length a + 1)
                     - Z.max (-1 + Z.of_nat (String.length a + 1)) 0))
    with 1 by lia.
  now rewrite substring_skip_append.
Qed.

Lemma digit_classes (c : ascii) :
  Py.is_digit c = true ->
  (c =? ":")%char = false /\ none_of "/?#@" c = true /\ none_of "/?#" c = true.
Proof.
  destruct c as [[] [] [] [] [] [] [] []]; intros H; try discriminate H;
    repeat split; reflexivity.
Qed.

Lemma digits_no_colon (p : string) :
  Py.all Py.is_digit p = true -> Py.contains ":" p = false.
Proof.
  induction p as [|c p IH]; simpl; [reflexivity |].
  intros H. apply andb_true_iff in H as [Hc Hp].
  destruct (digit_classes c Hc) as (-> & _). now apply IH.
Qed.

Lemma digits_classes (p : string) :
  Py.all Py.is_digit p = true ->
  Py.all (none_of "/?#@") p = true /\ Py.all (none_of "/?#") p = true.
Proof.
  induction p as [|c p IH]; simpl; [auto |].
  intros H. apply andb_true_iff in H as [Hc Hp].
  destruct (digit_classes c Hc) as (_ & -> & ->). now apply IH.
Qed.

(** The serialized host and port are cut back into the same host and port,
    unless the host ends in ":". *)
Lemma split_port_hostport (h p : string) :
  Py.all Py.is_digit p = true -> ends_with_colon h = false ->
  split_port (hostport h p) "" = (h, p).
Proof.
  intros Hp Hh. unfold hostport.
  destruct (Py.truthy p) eqn:Ep.
  - change (h ++ ":" ++ p) with (h ++ String ":" p).
    rewrite split_port_last by now apply digits_no_colon.
    unfold Py.isdigit. now rewrite Ep, Hp.
  - apply truthy_false in Ep; subst p.
    destruct (Py.contains ":" h) eqn:Ec; [| now apply split_port_absent].
    destruct (contains_split_last _ _ Ec) as (a & b & -> & Hb).
    rewrite rfind_last, slice_after_append by assumption.
    destruct (Py.isdigit b) eqn:Ed.
    + change ((a ++ String ":" b) ++ ":") with ((a ++ String ":" b) ++ String ":" "").
      now rewrite split_port_last.
    + rewrite split_port_last, Ed by assumption.
      destruct b as [|c b]; [| reflexivity].
      unfold ends_with_colon in Hh. now rewrite slice_last_append in Hh.
Qed.

Lemma hostport_host_class (h p : string) :
  Py.all (none_of "/?#") h = true -> Py.all Py.is_digit p = true ->
  Py.all (none_of "/?#") (hostport h p) = true.
Proof.
  intros Hh Hp. unfold hostport.
  destruct (Py.truthy p).
  - rewrite !all_append, Hh. now destruct (digits_classes p Hp) as (_ & ->).
  - destruct (Py.contains ":" h); [| assumption].
    destruct (Py.isdigit _); [| assumption].
    now rewrite all_append, Hh.
Qed.

Lemma host_class_no_at (s : string) :
  Py.all (none_of "/?#") s = true -> Py.contains "@" s = false ->
  Py.all (none_of "/?#@") s = true.
Proof.
  induction s as [|c s IH]; simpl; [reflexivity |].
  intros H1 H2. apply andb_true_iff in H1 as [Hc Hs].
  apply orb_false_iff in H2 as [Ec Es]. rewrite (IH Hs Es), andb_true_r.
  rewrite !none_of_cons in *. rewrite (Ascii.eqb_sym "@" c), Ec.
  now rewrite !andb_true_l in *.
Qed.

Lemma hostport_userinfo_class (h p : string) :
  Py.all (none_of "/?#") h = true -> Py.all Py.is_digit p = true ->
  Py.contains "@" h = false ->
  Py.all (none_of "/?#@") (hostport h p) = true.
Proof.
  intros Hh Hp Hat. pose proof (host_class_no_at h Hh Hat) as H.
  unfold hostport.
  destruct (Py.truthy p).
  - rewrite !all_append, H. now destruct (digits_classes p Hp) as (-> & _).
  - destruct (Py.contains ":" h); [| assumption].
    destruct (Py.isdigit _); [| assumption].
    now rewrite all_append, H.
Qed.

(** ** [find] and the first path segment *)

Lemma find_from_absent (c : ascii) (s : string) (i : Z) :
  Py.contains c s = false -> Py.find_from c s i = (-1)%Z.
Proof.
  revert i. induction s as [|d s IH]; simpl; intros i H; [reflexivity |].
  apply orb_false_iff in H as [-> Hs]. now apply IH.
Qed.

Lemma find_from_first (c : ascii) (a b : string) (i : Z) :
  Py.contains c a = false ->
  Py.find_from c (a ++ String c b) i = (i + Z.of_nat (String.length a))%Z.
Proof.
  revert i. induction a as [|d a IH]; intros i H.
  - simpl. rewrite Ascii.eqb_refl. lia.
  - simpl in H. apply orb_false_iff in H as [Hd Ha].
    cbn [append Py.find_from String.length]. rewrite Hd, IH by assumption. lia.
Qed.

Lemma contains_split_first (c : ascii) (s : string) :
  Py.contains c s = true ->
  exists a b, s = a ++ String c b /\ Py.contains c a = false.
Proof.
  induction s as [|d s IH]; simpl; [discriminate |].
  destruct (d =? c)%char eqn:E.
  - intros _. apply Ascii.eqb_eq in E; subst. now exists "", s.
  - intros H. destruct (IH H) as (a & b & -> & Ha).
    exists (String d a), b. simpl. now rewrite E, Ha.
Qed.

Lemma find_negative (c : ascii) (s : string) :
  (Py.find c s <? 0)%Z = negb (Py.contains c s).
Proof.
  unfold Py.find. destruct (Py.contains c s) eqn:E.
  - destruct (contains_split_first _ _ E) as (a & b & -> & Ha).
    rewrite find_from_first by assumption. simpl. apply Z.ltb_ge. lia.
  - now rewrite find_from_absent.
Qed.

Lemma slice_prefix (a b : string) :
  Py.slice (a ++ b) (Some 0%Z) (Some (Z.of_nat (String.length a))) = a.
Proof.
  unfold Py.slice, Py.clamp. rewrite length_append. cbn [Z.ltb Z.compare].
  destruct (Z.ltb_spec (Z.of_nat (String.length a)) 0); [lia |].
  rewrite Z.min_l by lia. rewrite Z.min_l by lia.
  rewrite Z.sub_0_r, Nat2Z.id. apply substring_0_append.
Qed.

Lemma span_append_all (p : ascii -> bool) (a s : string) :
  Py.all p a = true ->
  span p (a ++ s) = (a ++ fst (span p s), snd (span p s)).
Proof.
  intros Ha. induction a as [|c a IH]; simpl in *.
  - now destruct (span p s).
  - apply andb_true_iff in Ha as [-> Ha]. now rewrite (IH Ha).
Qed.

Lemma no_slash_all (a : string) :
  Py.contains "/" a = false -> Py.all not_slash a = true.
Proof.
  induction a as [|c a IH]; simpl; [reflexivity |].
  intros H. apply orb_false_iff in H as [Hc Ha].
  unfold not_slash at 1. now rewrite Hc, IH.
Qed.

Lemma colon_guard_at (a b : string) :
  Py.contains ":" a = false ->
  colon_guard (a ++ String ":" b) = Py.truthy a && negb (Py.contains "/" a).
Proof.
  intros Ha. unfold colon_guard, Py.find. rewrite find_from_first by assumption.
  cbn [Z.add]. unfold Py.find_in. rewrite slice_prefix.
  f_equal.
  - destruct a; [reflexivity |]. simpl. apply Z.ltb_lt. lia.
  - destruct (Py.contains "/" a) eqn:E.
    + pose proof (find_negative "/" a) as H. rewrite E in H. simpl in H.
      rewrite H. unfold Py.clamp. cbn [Z.ltb Z.compare].
      apply Z.ltb_ge. apply Z.ltb_ge in H.
      pose proof (Zle_0_nat (String.length (a ++ String ":" b))). lia.
    + pose proof (find_negative "/" a) as H. rewrite E in H. simpl in H.
      now rewrite H.
Qed.

Lemma first_segment_has_colon_at (a b : string) :
  Py.contains ":" a = false ->
  first_segment_has_colon (a ++ String ":" b) = negb (Py.contains "/" a).
Proof.
  intros Ha. unfold first_segment_has_colon.
  destruct (Py.contains "/" a) eqn:E.
  - destruct (contains_split_first _ _ E) as (a1 & a2 & -> & H1).
    rewrite contains_append in Ha. apply orb_false_iff in Ha as [Ha1 _].
    rewrite append_assoc.
    rewrite (span_append not_slash a1 (String "/" a2 ++ String ":" b));
      [exact Ha1 | now apply no_slash_all | reflexivity].
  - rewrite span_append_all by now apply no_slash_all.
    cbn [fst]. rewrite contains_append. cbn [span].
    change (not_slash ":") with true. cbv iota.
    destruct (span not_slash b) as [x y]. cbn [fst Py.contains].
    rewrite Ascii.eqb_refl. now rewrite orb_true_r.
Qed.

Lemma first_segment_no_colon (path : string) :
  Py.contains ":" path = false -> first_segment_has_colon path = false.
Proof.
  intros H. unfold first_segment_has_colon.
  destruct (span_spec not_slash path) as (E & _ & _).
  rewrite E, contains_append in H. now apply orb_false_iff in H as [-> _].
Qed.

(** The guard holds when the first segment has a ":" that is not the first
    character of the path. *)
Lemma colon_guard_spec (path : string) :
  colon_guard path = first_segment_has_colon path && negb (Py.first_is ":" path).
Proof.
  destruct (Py.contains ":" path) eqn:E.
  - destruct (contains_split_first _ _ E) as (a & b & -> & Ha).
    rewrite colon_guard_at, first_segment_has_colon_at by assumption.
    rewrite andb_comm. f_equal.
    destruct a as [|c a]; [reflexivity |].
    simpl in Ha. apply orb_false_iff in Ha as [Hc _]. simpl. now rewrite Hc.
  - rewrite first_segment_no_colon by assumption.
    unfold colon_guard, Py.find. now rewrite find_from_absent.
Qed.

(** ** Parsing a serialized URL *)

Lemma slice_2slash (s : string) :
  (Py.slice s (Some 0%Z) (Some 2%Z) =? "//") = starts_2slash s.
Proof.
  destruct s as [|c1 [|c2 r]]; [reflexivity | |].
  - change (Py.slice (String c1 "") (Some 0%Z) (Some 2%Z)) with (String c1 "").
    cbn [String.eqb starts_2slash]. now destruct (c1 =? "/")%char.
  - change (String c1 (String c2 r)) with (String c1 (String c2 "") ++ r).
    change 2%Z with (Z.of_nat (String.length (String c1 (String c2 "")))).
    rewrite slice_prefix. cbn [String.eqb starts_2slash append].
    now destruct (c1 =? "/")%char, (c2 =? "/")%char.
Qed.

Lemma prefix_cons (a b : ascii) (s1 s2 : string) :
  prefix (String a s1) (String b s2) = (b =? a)%char && prefix s1 s2.
Proof.
  cbn [prefix]. destruct (ascii_dec a b) as [<- | N].
  - now rewrite Ascii.eqb_refl.
  - apply Ascii.eqb_neq in N. now rewrite Ascii.eqb_sym, N.
Qed.

Lemma prefix_2slash (s : string) : prefix "//" s = starts_2slash s.
Proof.
  destruct s as [|c1 [|c2 r]]; [reflexivity | |].
  - rewrite prefix_cons. cbn [prefix starts_2slash]. apply andb_false_r.
  - rewrite !prefix_cons. cbn [starts_2slash]. destruct r; cbn [prefix]; now rewrite andb_true_r.
Qed.

Lemma escape_base_guard (u : URL) :
  escape_base u =
  if Py.truthy (authority u) || starts_2slash u.(path) then "//" ++ authority u
  else if negb (Py.truthy u.(scheme)) && Py.truthy u.(path) then
    if colon_guard u.(path) then "./" else authority u
  else authority u.
Proof. unfold escape_base. now rewrite slice_2slash. Qed.

Lemma as_string_scheme (u : URL) :
  as_string u =
  if Py.truthy u.(scheme)
  then u.(scheme) ++ String ":" (escape_base u ++ full_path u)
  else escape_base u ++ full_path u.
Proof.
  unfold as_string. destruct (Py.truthy u.(scheme)); [| reflexivity].
  now rewrite !append_assoc.
Qed.

Lemma split_scheme_present (sc x : string) :
  Py.all (none_of ":/?#") sc = true -> Py.truthy sc = true ->
  split_scheme (sc ++ String ":" x) = (sc, x).
Proof.
  intros Hc Ht. unfold split_scheme.
  rewrite (span_append _ sc (String ":" x) Hc eq_refl). now rewrite Ht.
Qed.

Lemma split_scheme_delim (x : string) :
  starts_delim x = true -> split_scheme x = ("", x).
Proof.
  intros H. unfold split_scheme.
  rewrite (span_append _ "" x eq_refl); [reflexivity |].
  now apply starts_delim_stops.
Qed.

Lemma segment_scheme_class (s : string) :
  Py.all not_slash s = true -> Py.contains ":" s = false ->
  Py.all (none_of "?#") s = true -> Py.all (none_of ":/?#") s = true.
Proof.
  induction s as [|c s IH]; simpl; [reflexivity |].
  intros H1 H2 H3.
  apply andb_true_iff in H1 as [S1 S2]. apply orb_false_iff in H2 as [C1 C2].
  apply andb_true_iff in H3 as [Q1 Q2]. rewrite (IH S2 C2 Q2), andb_true_r.
  rewrite !none_of_cons in *. unfold not_slash in S1.
  rewrite (Ascii.eqb_sym ":" c), C1, (Ascii.eqb_sym "/" c).
  apply negb_true_iff in S1. rewrite S1. exact Q1.
Qed.

(** A path whose first segment has no ":" is not taken for a scheme. *)
Lemma split_scheme_path (pa q f : string) :
  Py.all (none_of "?#") pa = true -> first_segment_has_colon pa = false ->
  split_scheme (pa ++ tail_str q f) = ("", pa ++ tail_str q f).
Proof.
  intros Hp Hc. unfold first_segment_has_colon in Hc. unfold split_scheme.
  destruct (span_spec not_slash pa) as (E & Ha & Hs).
  destruct (span not_slash pa) as [seg rest]; cbn [fst snd] in *.
  assert (Hseg : Py.all (none_of ":/?#") seg = true).
  { apply segment_scheme_class; auto.
    rewrite E, all_append in Hp. now apply andb_true_iff in Hp as [-> _]. }
  assert (Hstop : starts_delim (rest ++ tail_str q f) = true).
  { destruct rest as [|c rest]; [apply tail_str_delim |].
    cbn [stops] in Hs. unfold not_slash in Hs. rewrite negb_involutive in Hs.
    cbn [append starts_delim]. unfold delim3. now rewrite Hs. }
  rewrite E at 1. rewrite append_assoc.
  rewrite (span_append _ seg (rest ++ tail_str q f) Hseg)
    by now apply starts_delim_stops.
  now rewrite (starts_delim_first ":" _ eq_refl Hstop), andb_false_r.
Qed.

Lemma tail_str_no_slash (q f : string) : Py.first_is "/" (tail_str q f) = false.
Proof. unfold tail_str. now destruct q, f. Qed.

Lemma split_authority_absent (pa q f : string) :
  starts_2slash pa = false ->
  split_authority (pa ++ tail_str q f) = ("", "", pa ++ tail_str q f).
Proof.
  intros H. unfold split_authority.
  pose proof (tail_str_no_slash q f) as Hd.
  destruct pa as [|c1 [|c2 r]]; cbn [append] in *.
  - destruct (tail_str q f) as [|d1 [|d2 t]]; try reflexivity.
    cbn [Py.first_is] in Hd. now rewrite Hd.
  - destruct (tail_str q f) as [|d1 t]; [reflexivity |].
    cbn [Py.first_is] in Hd. now rewrite Hd, andb_false_r.
  - cbn [starts_2slash] in H. now rewrite H.
Qed.

(** The authority block of a serialized URL is split back into its parts. *)
Lemma split_userinfo_serialized (ui hp x : string) :
  Py.all (none_of "/?#@") ui = true ->
  (ui = "" -> Py.all (none_of "/?#@") hp = true) ->
  starts_delim x = true ->
  split_userinfo ((if Py.truthy ui then ui ++ "@" ++ hp else hp) ++ x)
  = (ui, hp ++ x).
Proof.
  intros Hu Hhp Hx. unfold split_userinfo.
  destruct (Py.truthy ui) eqn:Et.
  - assert (E : (ui ++ "@" ++ hp) ++ x = ui ++ String "@" (hp ++ x))
      by now rewrite append_assoc.
    rewrite E.
    now rewrite (span_append _ ui (String "@" (hp ++ x)) Hu eq_refl).
  - apply truthy_false in Et; subst ui.
    rewrite (span_append (none_of "/?#@") hp x); auto.
    + now rewrite (starts_delim_first "@" _ eq_refl Hx).
    + now apply starts_delim_stops.
Qed.

Lemma split_authority_serialized (ui h p x : string) :
  Py.all (none_of "/?#@") ui = true ->
  Py.all (none_of "/?#") h = true ->
  Py.all Py.is_digit p = true ->
  (ui = "" -> Py.contains "@" h = false) ->
  starts_delim x = true ->
  split_authority
    (("//" ++ (if Py.truthy ui then ui ++ "@" ++ hostport h p else hostport h p)) ++ x)
  = (ui, hostport h p, x).
Proof.
  intros Hu Hh Hp Hat Hx.
  set (A := if Py.truthy ui then ui ++ "@" ++ hostport h p else hostport h p).
  change (("//" ++ A) ++ x) with (String "/" (String "/" (A ++ x))).
  unfold split_authority. cbn [Ascii.eqb Bool.eqb andb]. subst A.
  rewrite split_userinfo_serialized; auto.
  - rewrite (span_append (none_of "/?#") (hostport h p) x); auto.
    + now apply hostport_host_class.
    + now apply starts_delim_stops.
  - intros E. apply hostport_userinfo_class; auto.
Qed.

Lemma has_authority_false (u : URL) :
  has_authority u = false ->
  u.(userinfo) = "" /\ u.(host) = "" /\ u.(port) = "" /\ authority u = "".
Proof.
  intros H. pose proof (authority_empty u) as Ha. rewrite H in Ha.
  unfold has_authority in H.
  apply orb_false_iff in H as [H Hp]. apply orb_false_iff in H as [Hh Hu].
  repeat split; now apply truthy_false.
Qed.

(** A value with the shape of a parsed one is parsed back from its string,
    when no escape is needed, the host does not end in ":" and an "@" in the
    host comes with a userinfo. *)
Lemma reparse_wf (u : URL) :
  wf_split u ->
  Py.lower u.(scheme) = u.(scheme) -> Py.lower u.(host) = u.(host) ->
  no_escape_needed u ->
  ends_with_colon u.(host) = false ->
  (u.(userinfo) = "" -> Py.contains "@" u.(host) = false) ->
  parse (as_string u) = Ok u.
Proof.
  intros W Ls Lh Pre Hc Hat. rewrite parse_direct. f_equal.
  destruct W as [Wsc Wui Wh Wp Wpa Wq Wr].
  destruct (has_authority u) eqn:Ea.
  - assert (Hfp : starts_delim (full_path u) = true)
      by now apply full_path_delim, Wr.
    assert (Eb : escape_base u = "//" ++ authority u)
      by now rewrite escape_base_guard, authority_empty, Ea.
    assert (Hs : split_scheme (as_string u)
                 = (u.(scheme), ("//" ++ authority u) ++ full_path u)).
    { rewrite as_string_scheme, Eb. destruct (Py.truthy u.(scheme)) eqn:Et.
      - now apply split_scheme_present.
      - apply truthy_false in Et. rewrite Et. now apply split_scheme_delim. }
    unfold split_direct. rewrite Hs, authority_hostport.
    rewrite split_authority_serialized by assumption.
    rewrite full_path_tail, split_tail_tail_str by assumption.
    unfold canon; cbn [scheme userinfo host port path query fragment].
    rewrite split_port_hostport, Ls, Lh by assumption. now destruct u.
  - destruct (has_authority_false u Ea) as (Eu & Eh & Ep & EA).
    destruct Pre as [N | [P2 Pc]]; [contradiction |].
    rewrite prefix_2slash in P2.
    assert (Pg : u.(scheme) = "" -> colon_guard u.(path) = false).
    { intros E. now rewrite colon_guard_spec, (Pc E EA). }
    assert (Eb : escape_base u = "").
    { rewrite escape_base_guard, authority_empty, Ea, P2, EA. cbn [orb].
      destruct (Py.truthy u.(scheme)) eqn:Et; [reflexivity |].
      apply truthy_false in Et. rewrite (Pg Et). now destruct (_ && _). }
    assert (Hs : split_scheme (as_string u) = (u.(scheme), full_path u)).
    { rewrite as_string_scheme, Eb. cbn [append].
      destruct (Py.truthy u.(scheme)) eqn:Et.
      - now apply split_scheme_present.
      - apply truthy_false in Et. rewrite Et, full_path_tail.
        apply split_scheme_path; auto. }
    unfold split_direct. rewrite Hs, full_path_tail.
    rewrite split_authority_absent, split_tail_tail_str by assumption.
    unfold canon; cbn [scheme userinfo host port path query fragment].
    rewrite Ls. destruct u as [sc ui h p pa q f]; cbn in Eu, Eh, Ep. now subst.
Qed.

(** ** The loop of [remove_dot_segments] *)

Lemma prefix_append (a s : string) : prefix a s = true -> exists r, s = a ++ r.
Proof.
  revert s. induction a as [|c a IH]; intros s H; [now exists s |].
  destruct s as [|d s]; [discriminate |].
  rewrite prefix_cons in H. apply andb_true_iff in H as [Hc Hs].
  apply Ascii.eqb_eq in Hc; subst d. destruct (IH s Hs) as (r & ->). now exists r.
Qed.

Lemma first_segment_shorter (c : ascii) (s : string) :
  String.length (snd (first_segment (String c s))) < String.length (String c s).
Proof.
  assert (H : String.length (snd (span not_slash s)) <= String.length s).
  { destruct (span_spec not_slash s) as (E & _ & _).
    rewrite E at 2. rewrite length_append. lia. }
  unfold first_segment. destruct (c =? "/")%char eqn:E.
  - destruct (span not_slash s); cbn in *; lia.
  - cbn [span]. unfold not_slash at 1. rewrite E. cbn [negb].
    destruct (span not_slash s); cbn in *; lia.
Qed.

(** The loop of [remove_dot_segments] ends within its bound. *)
Lemma rds_loop_total (fuel : nat) (input output : string) :
  String.length input <= fuel -> exists r, rds_loop fuel input output = Some r.
Proof.
  revert input output. induction fuel as [|fuel IH]; intros input output H.
  - destruct input; [simpl; eauto | simpl in H; lia].
  - destruct input as [|c s]; [simpl; eauto |].
    assert (Hcut : forall a, prefix a (String c s) = true ->
              String.length
                (Py.slice (String c s) (Some (Z.of_nat (String.length a))) None)
              + String.length a = String.length (String c s)).
    { intros a Ha. destruct (prefix_append _ _ Ha) as (r & ->).
      rewrite slice_from_append, length_append. lia. }
    cbn [rds_loop].
    destruct (prefix "../" (String c s)) eqn:E1.
    { apply IH. specialize (Hcut "../" E1). cbn [String.length Z.of_nat] in *.
      change (Z.pos (Pos.of_succ_nat 2)) with 3%Z in Hcut. lia. }
    destruct (prefix "./" (String c s)) eqn:E2.
    { apply IH. specialize (Hcut "./" E2). cbn [String.length Z.of_nat] in *.
      change (Z.pos (Pos.of_succ_nat 1)) with 2%Z in Hcut. lia. }
    destruct (prefix "/./" (String c s)) eqn:E3.
    { apply IH. specialize (Hcut "/./" E3). cbn [String.length Z.of_nat append] in *.
      change (Z.pos (Pos.of_succ_nat 2)) with 3%Z in Hcut. lia. }
    destruct (String c s =? "/.")%string eqn:E4.
    { apply IH. apply String.eqb_eq in E4. rewrite E4 in H. cbn in *. lia. }
    destruct (prefix "/../" (String c s)) eqn:E5.
    { apply IH. specialize (Hcut "/../" E5). cbn [String.length Z.of_nat append] in *.
      change (Z.pos (Pos.of_succ_nat 3)) with 4%Z in Hcut. lia. }
    destruct (String c s =? "/..")%string eqn:E6.
    { apply IH. apply String.eqb_eq in E6. rewrite E6 in H. cbn in *. lia. }
    pose proof (first_segment_shorter c s) as Hseg.
    destruct (first_segment (String c s)) as [seg rest]. apply IH.
    cbn [snd] in Hseg. lia.
Qed.

Lemma remove_dot_segments_total (path : string) :
  exists r, remove_dot_segments path = Some r.
Proof. apply rds_loop_total. lia. Qed.

(** ** The validation patterns, read off *)

(** When the continuation fails wherever a character outside the class is
    still ahead, a repetition over a string with such a character fails. *)
Lemma star_fail (p : ascii -> bool) (k : cont) (g : captures) (s : string) :
  (forall s', Py.all p s' = false -> k s' g = None) ->
  Py.all p s = false -> star p s g k = None.
Proof.
  intros Hk. induction s as [|c s IH]; [discriminate |].
  cbn [Py.all star]. intros H. destruct (p c) eqn:E.
  - cbn [andb] in H. rewrite (IH H). apply Hk. cbn [Py.all]. now rewrite E.
  - apply Hk. cbn [Py.all]. now rewrite E.
Qed.

Lemma span_all (p : ascii -> bool) (s : string) :
  Py.all p s = true -> span p s = (s, "").
Proof.
  intros H. rewrite <- (append_nil_r s) at 1. now apply span_append.
Qed.

(** [^[...]+$] for a class that holds the newline: the whole string is in the
    class and is not empty. *)
Lemma no_match_plus (p : ascii -> bool) (s : string) :
  p Py.LF = true ->
  no_match (Bol ;;; Plus p ;;; Eol) s = negb (Py.truthy s && Py.all p s).
Proof.
  intros HLF. unfold no_match, rmatch. cbn [exec Plus]. rewrite Nat.eqb_refl.
  destruct s as [|c s]; [reflexivity |].
  cbn [Py.truthy Py.all andb]. destruct (p c); [| reflexivity].
  cbn [andb]. destruct (Py.all p s) eqn:E.
  - rewrite (star_greedy _ _ _ []); [reflexivity |].
    now rewrite span_all.
  - rewrite star_fail; [reflexivity | | exact E].
    intros s' H. destruct s' as [|d [|e t]]; [discriminate | | ].
    + cbn [Py.all] in H. rewrite andb_true_r in H.
      destruct (Ascii.eqb_spec d Py.LF) as [-> | N]; [congruence |].
      cbn [String.eqb orb]. apply Ascii.eqb_neq in N. now rewrite N.
    + cbn [String.eqb orb]. now destruct (d =? Py.LF)%char.
Qed.

(** [_valid_scheme_re]: a lowercase letter, then the longest run of scheme
    characters must reach the end or stop right before a final newline. *)
Lemma no_match_scheme (s : string) :
  no_match _valid_scheme_re s =
  match s with
  | EmptyString => true
  | String c r =>
      negb (Py.is_lower c
            && ((snd (span scheme_tail r) =? "")
                || (snd (span scheme_tail r) =? String Py.LF "")))
  end.
Proof.
  unfold no_match, rmatch, _valid_scheme_re. cbn [exec]. rewrite Nat.eqb_refl.
  destruct s as [|c r]; [reflexivity |].
  destruct (Py.is_lower c); [| reflexivity]. cbn [andb].
  fold scheme_tail. rewrite star_longest.
  - now destruct ((snd (span scheme_tail r) =? "")
                  || (snd (span scheme_tail r) =? String Py.LF "")).
  - intros d s' Hd. destruct s' as [|e t]; cbn [String.eqb orb].
    + destruct (Ascii.eqb_spec d Py.LF) as [-> | N]; [discriminate Hd | reflexivity].
    + now destruct (d =? Py.LF)%char.
Qed.

(** [validate] as a chain of tests: only components that are not empty are
    tested, in the order scheme, userinfo, host, path, query, the first
    failure decides the exception, the fragment is not looked at, and a URL
    that passes is returned as it is.  Userinfo, unbracketed host, path and
    query pass exactly when they hold none of their excluded characters. *)
Lemma validate_chain (u : URL) :
  validate u =
  if Py.truthy u.(scheme) && no_match _valid_scheme_re u.(scheme)
  then Raise InvalidScheme
  else if Py.truthy u.(userinfo) && negb (Py.all (none_of "/?#@[]") u.(userinfo))
  then Raise InvalidUserinfo
  else if Py.truthy u.(host)
          && (if bracketed u.(host)
              then no_match _valid_ip_literal_re
                            (Py.slice u.(host) (Some 1%Z) (Some (-1)%Z))
              else negb (Py.all (none_of "/?#@[]:") u.(host)))
  then Raise InvalidHost
  else if Py.truthy u.(path) && negb (Py.all (none_of "?#") u.(path))
  then Raise InvalidPath
  else if Py.truthy u.(query) && negb (Py.all (none_of "#") u.(query))
  then Raise InvalidQuery
  else Ok u.
Proof.
  unfold validate, _valid_userinfo_re, _valid_reg_name_re, _valid_path_re,
    _valid_query_re.
  rewrite !no_match_plus by reflexivity. fold (bracketed u.(host)).
  destruct (Py.truthy u.(scheme)); cbn [andb negb bind];
    [destruct (no_match _valid_scheme_re u.(scheme)); [reflexivity |] |];
    cbn [bind];
    (destruct (Py.truthy u.(userinfo)); cbn [andb negb bind];
     [destruct (Py.all (none_of "/?#@[]") u.(userinfo)); [| reflexivity] |];
     cbn [negb bind];
     (destruct (Py.truthy u.(host)); cbn [andb negb bind];
      [destruct (bracketed u.(host));
       [destruct (no_match _valid_ip_literal_re _); [reflexivity |]
       | destruct (Py.all (none_of "/?#@[]:") u.(host)); [| reflexivity]] |];
      cbn [negb bind];
      (destruct (Py.truthy u.(path)); cbn [andb negb bind];
       [destruct (Py.all (none_of "?#") u.(path)); [| reflexivity] |];
       cbn [negb bind];
       (destruct (Py.truthy u.(query)); cbn [andb negb bind];
        [destruct (Py.all (none_of "#") u.(query)); reflexivity | reflexivity])))).
Qed.

(** ** The split loses nothing but delimiters *)

Lemma first_is_skip (c : ascii) (s : string) :
  Py.first_is c s = true -> s = String c (skip c s).
Proof.
  destruct s as [|d s]; [discriminate |]. cbn [Py.first_is skip].
  intros H. rewrite H. apply Ascii.eqb_eq in H. now subst.
Qed.

Lemma skip_concat (c : ascii) (s : string) :
  exists d, (d = "" \/ d = String c "") /\ s = d ++ skip c s.
Proof.
  destruct (Py.first_is c s) eqn:E.
  - exists (String c ""). split; [now right |]. now apply first_is_skip.
  - exists "". split; [now left |]. now rewrite skip_other.
Qed.

Lemma split_scheme_concat (s : string) :
  exists d, (d = "" \/ d = ":")
            /\ s = fst (split_scheme s) ++ d ++ snd (split_scheme s).
Proof.
  unfold split_scheme. destruct (span_spec (none_of ":/?#") s) as (E & _ & _).
  destruct (span (none_of ":/?#") s) as [a b]; cbn [fst snd] in *.
  destruct (Py.truthy a && Py.first_is ":" b) eqn:H.
  - apply andb_true_iff in H as [_ H]. exists ":". split; [now right |].
    cbn [fst snd]. rewrite E at 1. now rewrite (first_is_skip _ _ H) at 1.
  - exists "". split; [now left | reflexivity].
Qed.

Lemma split_userinfo_concat (s : string) :
  exists d, (d = "" \/ d = "@")
            /\ s = fst (split_userinfo s) ++ d ++ snd (split_userinfo s).
Proof.
  unfold split_userinfo. destruct (span_spec (none_of "/?#@") s) as (E & _ & _).
  destruct (span (none_of "/?#@") s) as [a b]; cbn [fst snd] in *.
  destruct (Py.first_is "@" b) eqn:H.
  - exists "@". split; [now right |].
    cbn [fst snd]. rewrite E at 1. now rewrite (first_is_skip _ _ H) at 1.
  - exists "". split; [now left | reflexivity].
Qed.

Lemma split_authority_concat (s : string) :
  let '(ui, hp, r) := split_authority s in
  exists d2 d3, (d2 = "" \/ d2 = "//") /\ (d3 = "" \/ d3 = "@")
                /\ s = d2 ++ ui ++ d3 ++ hp ++ r.
Proof.
  unfold split_authority.
  destruct s as [|c1 [|c2 r]]; try (exists "", ""; now auto).
  destruct (Ascii.eqb_spec c1 "/") as [-> | N1]; [| exists "", ""; now auto].
  destruct (Ascii.eqb_spec c2 "/") as [-> | N2]; [| exists "", ""; now auto].
  cbn [andb].
  destruct (split_userinfo_concat r) as (d3 & Hd3 & E3).
  destruct (split_userinfo r) as [ui r1]; cbn [fst snd] in E3.
  destruct (span_spec (none_of "/?#") r1) as (E4 & _ & _).
  destruct (span (none_of "/?#") r1) as [hp r2]; cbn [fst snd] in E4.
  exists "//", d3. split; [now right |]. split; [exact Hd3 |].
  cbn [append]. rewrite E3 at 1. now rewrite E4 at 1.
Qed.

Lemma split_tail_concat (s : string) :
  let '(pa, q, f) := split_tail s in
  exists d4 d5, (d4 = "" \/ d4 = "?") /\ (d5 = "" \/ d5 = "#")
                /\ s = pa ++ d4 ++ q ++ d5 ++ f.
Proof.
  unfold split_tail.
  destruct (span_spec (none_of "?#") s) as (E1 & _ & _).
  destruct (span (none_of "?#") s) as [pa r]; cbn [fst snd] in E1.
  destruct (skip_concat "?" r) as (d4 & Hd4 & E2).
  destruct (span_spec (none_of "#") (skip "?" r)) as (E3 & _ & _).
  destruct (span (none_of "#") (skip "?" r)) as [q r']; cbn [fst snd] in E3.
  destruct (skip_concat "#" r') as (d5 & Hd5 & E4).
  exists d4, d5. repeat split; auto.
  rewrite E1 at 1. rewrite E2 at 1. rewrite E3 at 1. now rewrite E4 at 1.
Qed.

(** The input is its seven components in order, with at most the five
    delimiters between them. *)
Lemma split_direct_concat (s : string) :
  exists d1 d2 d3 d4 d5,
    (d1 = "" \/ d1 = ":") /\ (d2 = "" \/ d2 = "//") /\ (d3 = "" \/ d3 = "@")
    /\ (d4 = "" \/ d4 = "?") /\ (d5 = "" \/ d5 = "#")
    /\ s = (split_direct s).(scheme) ++ d1 ++ d2 ++ (split_direct s).(userinfo)
             ++ d3 ++ (split_direct s).(host) ++ (split_direct s).(path)
             ++ d4 ++ (split_direct s).(query) ++ d5 ++ (split_direct s).(fragment).
Proof.
  unfold split_direct.
  destruct (split_scheme_concat s) as (d1 & H1 & E1).
  destruct (split_scheme s) as [sc r]; cbn [fst snd] in E1.
  pose proof (split_authority_concat r) as H.
  destruct (split_authority r) as [[ui hp] r1].
  destruct H as (d2 & d3 & H2 & H3 & E2).
  pose proof (split_tail_concat r1) as H.
  destruct (split_tail r1) as [[pa q] f].
  destruct H as (d4 & d5 & H4 & H5 & E3).
  exists d1, d2, d3, d4, d5. repeat split; auto.
  cbn [scheme userinfo host path query fragment].
  rewrite E1 at 1. rewrite E2 at 1. now rewrite E3 at 1.
Qed.

(** Joining never raises: the loop of [remove_dot_segments] ends and the
    Constructor accepts every component. *)
Lemma URL_add_total (a b : URL) : exists u, URL_add a b = Ok u.
Proof.
  unfold URL_add. destruct a, b.
  destruct (if negb (Py.truthy scheme1) then _ else _) as [[[[[x1 x2] x3] x4] x5] x6].
  destruct (remove_dot_segments_total x5) as (r & ->).
  unfold URL_new. eauto.
Qed.

(** * The claims *)

(** ** C1: the join vectors of RFC 3986 5.4 *)

(** C1: with the base "http://a/b/c/d;p?q", joining each relative reference
    of the list and serializing gives the string RFC 3986 5.4 gives; the
    excess ".." of "../../../g" is dropped and nothing is raised. *)
Theorem join_rfc3986_vectors :
  join_str "http://a/b/c/d;p?q" "g" = Ok "http://a/b/c/g"
  /\ join_str "http://a/b/c/d;p?q" "./g" = Ok "http://a/b/c/g"
  /\ join_str "http://a/b/c/d;p?q" "g/" = Ok "http://a/b/c/g/"
  /\ join_str "http://a/b/c/d;p?q" "/g" = Ok "http://a/g"
  /\ join_str "http://a/b/c/d;p?q" "//g" = Ok "http://g"
  /\ join_str "http://a/b/c/d;p?q" "?y" = Ok "http://a/b/c/d;p?y"
  /\ join_str "http://a/b/c/d;p?q" "#s" = Ok "http://a/b/c/d;p?q#s"
  /\ join_str "http://a/b/c/d;p?q" "../../../g" = Ok "http://a/g"
  /\ join_str "http://a/b/c/d;p?q" "" = Ok "http://a/b/c/d;p?q".
Proof. repeat split; vm_compute; reflexivity. Qed.

(** ** C2: parsing never fails, and the round trip *)




(** The same with a host that ends in ":": "//a::" parses to the host "a:",
    serialized as "//a:", which parses to the host "a". *)
Lemma roundtrip_trailing_colon :
  parse "//a::" = Ok (mkURL "" "" "a:" "" "" "" "")
  /\ as_string (mkURL "" "" "a:" "" "" "" "") = "//a:"
  /\ parse "//a:" = Ok (mkURL "" "" "a" "" "" "" "").
Proof. repeat split. Qed.

(** ** C3: the port is cut off the host *)

(** C3 as stated fails: in "//a:" the candidate is "a:", nothing follows its
    last ":", and yet the host is cut to "a". *)
Lemma port_split_counterexample :
  (exists m, rmatch _split_re "//a:" = Some m /\ (groups m).(host) = "a:")
  /\ Py.isdigit (Py.slice "a:" (Some (Py.rfind ":" "a:" + 1)%Z) None) = false
  /\ exists u, parse "//a:" = Ok u /\ u.(host) <> Py.lower "a:".
Proof.
  split; [eexists; split; reflexivity |].
  split; [reflexivity |].
  eexists; split; [reflexivity | discriminate].
Qed.

(** C3 (as amended): the host:port candidate of the split is cut at its last
    ":" exactly when what follows that ":" is empty or all digits; the host is
    then the text before the ":" and the port the text after it, so that a
    trailing ":" is dropped.  Otherwise, with no ":" or with a character that
    is not a digit after the last ":", the whole candidate is the host and
    the port is empty.  The host is stored in lowercase.  "//a:b" keeps
    "a:b" as its host and "//user:pass@[::1]:80" has the port "80". *)
Theorem port_split (s : string) :
  exists m u, rmatch _split_re s = Some m /\ parse s = Ok u
    /\ (Py.contains ":" (groups m).(host) = false ->
        u.(host) = Py.lower (groups m).(host) /\ u.(port) = "")
    /\ (forall a b, (groups m).(host) = a ++ ":" ++ b -> Py.contains ":" b = false ->
        if (b =? "") || Py.all Py.is_digit b
        then u.(host) = Py.lower a /\ u.(port) = b
        else u.(host) = Py.lower (a ++ ":" ++ b) /\ u.(port) = "")
    /\ parse "//a:b" = Ok (mkURL "" "" "a:b" "" "" "" "")
    /\ parse "//user:pass@[::1]:80" = Ok (mkURL "" "user:pass" "[::1]" "80" "" "" "").
Proof.
  destruct (split_re_direct s) as (m & Hm & Hg).
  pose proof (split_direct_wf s) as [_ Hp]. rewrite <- Hg in Hp.
  exists m. unfold parse, URL_new. rewrite Hm.
  destruct (groups m) as [sc ui h p pa q f]. cbn [host port] in *. subst p.
  destruct (split_port h "") as [h' p'] eqn:E.
  eexists; split; [reflexivity |]. split; [reflexivity |].
  cbn [host port]. repeat split; try reflexivity.
  - rewrite split_port_absent in E by assumption. now injection E as <- <-.
  - rewrite split_port_absent in E by assumption. now injection E as <- <-.
  - intros a b -> Hb.
    change (a ++ ":" ++ b) with (a ++ String ":" b) in *.
    rewrite split_port_last in E by assumption. unfold Py.isdigit in E.
    destruct b as [|c b].
    + cbn in E. now injection E as <- <-.
    + cbn [String.eqb orb Py.truthy negb andb] in *.
      destruct (Py.all Py.is_digit (String c b)); now injection E as <- <-.
Qed.

Lemma port_split_witness :
  exists m u, rmatch _split_re "//A:80" = Some m /\ parse "//A:80" = Ok u
              /\ u.(host) = "a" /\ u.(port) = "80".
Proof.
  destruct (port_split "//A:80") as (m & u & Hm & Hu & _ & H & _).
  exists m, u. split; [exact Hm |]. split; [exact Hu |].
  assert (E : rmatch _split_re "//A:80" = Some [(7, ""); (6, ""); (5, ""); (4, ""); (3, "A:80")])
    by reflexivity.
  rewrite E in Hm. injection Hm as <-.
  exact (H "A" "80" eq_refl eq_refl).
Defined.

(** ** C4: the "./" escape *)




(** ** C5: validation *)

(** C5 on the input that shows the defect: the scheme "a" followed by a
    newline is not in the grammar, the URL is what [parse] returns for that
    scheme followed by ":b", and [validate] returns it instead of raising
    [InvalidScheme], because [$] in [_valid_scheme_re] also matches before a
    final newline. *)
Theorem validate_newline_scheme :
  parse (String "a" (String Py.LF ":b")) = Ok url_newline_scheme
  /\ scheme_grammar url_newline_scheme.(scheme) = false
  /\ validate url_newline_scheme = Ok url_newline_scheme.
Proof. repeat split. Qed.

(** ** C6: scheme and host are lowercase *)

Lemma lower_no_upper (s : string) : no_upper (Py.lower s) = true.
Proof.
  unfold no_upper. induction s as [|c s IH]; cbn [Py.lower Py.all]; [reflexivity |].
  now rewrite lower_char_not_upper, IH.
Qed.

Lemma URL_new_lowercase (url : option string) (sc ui h p pa q f : string) (u : URL) :
  URL_new url sc ui h p pa q f = Ok u ->
  no_upper u.(scheme) = true /\ no_upper u.(host) = true.
Proof.
  unfold URL_new. destruct url as [s|].
  - destruct (rmatch _split_re s) as [m|]; [| discriminate].
    destruct (groups m) as [sc' ui' h' p' pa' q' f'].
    destruct (split_port h' p') as [h2 p2]. intros [= <-].
    split; apply lower_no_upper.
  - intros [= <-]. split; apply lower_no_upper.
Qed.

(** C6: scheme and host of a URL returned by parse, build, join, replace or
    setdefault contain no uppercase letter. *)
Theorem produced_lowercase (u : URL) :
  produced u -> no_upper u.(scheme) = true /\ no_upper u.(host) = true.
Proof.
  intros [s u' H | sc ui h p pa q f u' H | a b u' H
          | self sc ui h p pa q f au fp u' H | self sc ui h p pa q f u' H].
  - exact (URL_new_lowercase _ _ _ _ _ _ _ _ _ H).
  - exact (URL_new_lowercase _ _ _ _ _ _ _ _ _ H).
  - unfold URL_add in H. destruct a, b.
    destruct (if negb (Py.truthy scheme1) then _ else _) as [[[[[x1 x2] x3] x4] x5] x6].
    destruct (remove_dot_segments x5); [| discriminate].
    exact (URL_new_lowercase _ _ _ _ _ _ _ _ _ H).
  - unfold replace in H. destruct self.
    destruct (match au with Some _ => _ | None => _ end) as [[[x1 x2] x3]|];
      [| discriminate].
    cbn [bind] in H.
    destruct (match fp with Some _ => _ | None => _ end) as [[[y1 y2] y3]|];
      [| discriminate].
    exact (URL_new_lowercase _ _ _ _ _ _ _ _ _ H).
  - unfold setdefault in H. destruct self.
    exact (URL_new_lowercase _ _ _ _ _ _ _ _ _ H).
Qed.

Lemma produced_lowercase_witness :
  produced (mkURL "http" "" "example.com" "" "/A" "" "")
  /\ no_upper "http" = true /\ no_upper "example.com" = true.
Proof.
  assert (P : produced (mkURL "http" "" "example.com" "" "/A" "" ""))
    by (apply (by_parse "HTTP://EXAMPLE.com/A"); reflexivity).
  split; [exact P |]. exact (produced_lowercase _ P).
Defined.

(** ** C7: the leading slash of a built URL *)

(** C7: built from components with a userinfo, host or port that is not
    empty, a non-empty path that does not start with "/" is stored with a "/"
    in front; parsed from a string, the path is the one of the split. *)
Theorem build_inserts_slash :
  (forall sc ui h p pa q f,
      Py.truthy ui || Py.truthy h || Py.truthy p = true ->
      pa <> "" -> Py.first_is "/" pa = false ->
      exists u, build sc ui h p pa q f = Ok u /\ u.(path) = "/" ++ pa)
  /\ (forall s, exists m u,
        rmatch _split_re s = Some m /\ parse s = Ok u /\ u.(path) = (groups m).(path)).
Proof.
  split.
  - intros sc ui h p pa q f Ha Hp Hs. unfold build, URL_new. rewrite Ha, Hs.
    destruct pa as [|c pa]; [contradiction |].
    eexists; split; reflexivity.
  - intros s. destruct (split_re_direct s) as (m & Hm & _).
    exists m. unfold parse, URL_new. rewrite Hm.
    destruct (groups m) as [sc ui h p pa q f].
    destruct (split_port h p) as [h' p'].
    eexists; repeat split.
Qed.

Lemma build_inserts_slash_witness :
  Py.truthy "" || Py.truthy "h" || Py.truthy "" = true
  /\ "p" <> "" /\ Py.first_is "/" "p" = false
  /\ exists u, build "" "" "h" "" "p" "" "" = Ok u /\ u.(path) = "/p".
Proof.
  assert (H1 : Py.truthy "" || Py.truthy "h" || Py.truthy "" = true) by reflexivity.
  assert (H2 : "p" <> "") by discriminate.
  assert (H3 : Py.first_is "/" "p" = false) by reflexivity.
  repeat split; try assumption.
  exact (proj1 build_inserts_slash "" "" "h" "" "p" "" "" H1 H2 H3).
Defined.

(** ** C8: replace and its shortcuts *)




(** ** C9: the truth value of a URL *)

Lemma truthy_iff (s : string) : Py.truthy s = true <-> s <> "".
Proof. destruct s; simpl; split; congruence. Qed.

(** C9: a URL is true exactly when one of its seven components is not empty;
    the empty string parses to the URL of seven empty components, which is
    false. *)
Theorem bool_iff_nonempty :
  (forall u, URL_bool u = true <->
             u.(scheme) <> "" \/ u.(userinfo) <> "" \/ u.(host) <> ""
             \/ u.(port) <> "" \/ u.(path) <> "" \/ u.(query) <> ""
             \/ u.(fragment) <> "")
  /\ parse "" = Ok (mkURL "" "" "" "" "" "" "")
  /\ URL_bool (mkURL "" "" "" "" "" "" "") = false.
Proof.
  split; [| split; reflexivity].
  intros u. unfold URL_bool. cbn [existsb].
  rewrite orb_false_r, !orb_true_iff, !truthy_iff. reflexivity.
Qed.

(** ** C10: what parsing leaves as it is *)

(** C10: a URL parsed from a string has the userinfo, path, query and
    fragment of the split and the port cut off the host candidate, unchanged;
    its scheme and its host are those of the split in lowercase.  The
    components of the split are the pieces of the input itself: put together
    in order, with at most the delimiters ":", "//", "@", "?" and "#" between
    them, they give the input. *)
Theorem parse_keeps_split (s : string) :
  exists m u,
    rmatch _split_re s = Some m /\ parse s = Ok u
    /\ u.(userinfo) = (groups m).(userinfo)
    /\ u.(port) = snd (split_port (groups m).(host) (groups m).(port))
    /\ u.(path) = (groups m).(path)
    /\ u.(query) = (groups m).(query)
    /\ u.(fragment) = (groups m).(fragment)
    /\ u.(scheme) = Py.lower (groups m).(scheme)
    /\ u.(host) = Py.lower (fst (split_port (groups m).(host) (groups m).(port)))
    /\ exists d1 d2 d3 d4 d5,
         (d1 = "" \/ d1 = ":") /\ (d2 = "" \/ d2 = "//") /\ (d3 = "" \/ d3 = "@")
         /\ (d4 = "" \/ d4 = "?") /\ (d5 = "" \/ d5 = "#")
         /\ s = (groups m).(scheme) ++ d1 ++ d2 ++ (groups m).(userinfo)
                  ++ d3 ++ (groups m).(host) ++ (groups m).(path)
                  ++ d4 ++ (groups m).(query) ++ d5 ++ (groups m).(fragment).
Proof.
  destruct (split_re_direct s) as (m & Hm & Hg).
  pose proof (split_direct_concat s) as Hc. rewrite <- Hg in Hc.
  exists m. unfold parse, URL_new. rewrite Hm.
  destruct (groups m) as [sc ui h p pa q f]. cbn [host port].
  destruct (split_port h p) as [h' p'].
  eexists; repeat split. exact Hc.
Qed.

(** * Further properties *)

(** ** Every URL is in canonical form *)














(** ** Accessors *)

(** X5: the [authority] accessor is the empty string exactly when
    [has_authority] is false. *)
Theorem has_authority_iff (u : URL) :
  has_authority u = true <-> authority u <> "".
Proof. rewrite <- authority_empty. apply truthy_iff. Qed.

Lemma slice_to_first (a b : string) (c : ascii) :
  Py.slice (a ++ String c b) None (Some (Z.of_nat (String.length a))) = a.
Proof. apply slice_to_append. Qed.

(** X6: [username] holds no ":", and the userinfo is the username alone when
    it has no ":" and otherwise the username, a ":" and the authorization. *)
Theorem username_authorization (u : URL) :
  Py.contains ":" (username u) = false
  /\ u.(userinfo)
     = (if Py.contains ":" u.(userinfo)
        then username u ++ ":" ++ authorization u
        else username u)
  /\ (Py.contains ":" u.(userinfo) = false -> authorization u = "").
Proof.
  unfold username, authorization, Py.partition, Py.find.
  destruct (Py.contains ":" u.(userinfo)) eqn:E.
  - destruct (contains_split_first _ _ E) as (a & b & Eu & Ha). rewrite Eu.
    rewrite find_from_first by assumption. cbn [Z.add].
    destruct (Z.ltb_spec (Z.of_nat (String.length a)) 0); [lia |].
    rewrite slice_to_first, slice_after_append.
    repeat split; auto. discriminate.
  - rewrite find_from_absent by assumption. cbn. auto.
Qed.

(** ** Joining *)

(** X7: a reference with a scheme is joined to every base in the same way:
    nothing of the base enters the result. *)
Theorem join_absolute (a b other : URL) :
  is_relative other = false -> URL_add a other = URL_add b other.
Proof.
  unfold is_relative. intros H. apply negb_false_iff in H.
  unfold URL_add. destruct a, b, other. cbn [scheme] in H. now rewrite H.
Qed.

Lemma join_absolute_witness :
  is_relative (mkURL "ftp" "" "x" "" "/y" "" "") = false
  /\ URL_add url_user_host (mkURL "ftp" "" "x" "" "/y" "" "")
     = URL_add url_path_h (mkURL "ftp" "" "x" "" "/y" "" "").
Proof.
  split; [reflexivity |].
  exact (join_absolute url_user_host url_path_h
                       (mkURL "ftp" "" "x" "" "/y" "" "") eq_refl).
Defined.

(** Where each component of a join comes from. *)
Lemma join_parts (self other u : URL) :
  URL_add self other = Ok u ->
  u.(fragment) = other.(fragment)
  /\ u.(scheme) = Py.lower (if Py.truthy other.(scheme)
                            then other.(scheme) else self.(scheme))
  /\ (if Py.truthy other.(scheme) || has_authority other
      then u.(userinfo) = other.(userinfo) /\ u.(host) = Py.lower other.(host)
           /\ u.(port) = other.(port)
      else u.(userinfo) = self.(userinfo) /\ u.(host) = Py.lower self.(host)
           /\ u.(port) = self.(port))
  /\ u.(query) = (if Py.truthy other.(scheme) || has_authority other
                     || Py.truthy other.(path) || Py.truthy other.(query)
                  then other.(query) else self.(query)).
Proof.
  unfold URL_add, has_authority.
  destruct self as [s0 s1 s2 s3 s4 s5 s6], other as [sc ui h p pa q f].
  cbn [scheme userinfo host port path query fragment].
  destruct (Py.truthy sc) eqn:Esc; cbn [negb orb].
  - destruct (remove_dot_segments pa); [| discriminate].
    unfold URL_new. intros [= <-]. cbn [scheme userinfo host port path query fragment orb]. repeat split.
  - destruct (Py.truthy h || Py.truthy ui || Py.truthy p) eqn:Ea; cbn [negb].
    + destruct (remove_dot_segments pa); [| discriminate].
      unfold URL_new. intros [= <-]. cbn [scheme userinfo host port path query fragment orb]. repeat split.
    + destruct (Py.truthy pa) eqn:Ep; cbn [negb orb].
      * destruct (negb (Py.first_is "/" pa)).
        -- destruct (Py.rpartition "/" s4) as [[p0 p1] p2].
           destruct (remove_dot_segments _); [| discriminate].
           unfold URL_new. intros [= <-]. cbn [scheme userinfo host port path query fragment orb]. repeat split.
        -- destruct (remove_dot_segments _); [| discriminate].
           unfold URL_new. intros [= <-]. cbn [scheme userinfo host port path query fragment orb]. repeat split.
      * destruct (Py.truthy q) eqn:Eq; cbn [negb];
          (destruct (remove_dot_segments _); [| discriminate]);
          unfold URL_new; intros [= <-]; cbn [scheme userinfo host port path query fragment orb]; repeat split.
Qed.

(** X8: in the result of a join the fragment is the one of the reference; the
    scheme is the one of the reference, or of the base when the reference has
    none; userinfo, host and port are those of the reference when it has a
    scheme or an authority, and those of the base otherwise; the query of the
    base is taken only when the reference has no scheme, authority, path or
    query.  Scheme and host are stored in lowercase. *)
Theorem join_components (self other u : URL) :
  URL_add self other = Ok u ->
  u.(fragment) = other.(fragment)
  /\ u.(scheme) = Py.lower (if Py.truthy other.(scheme)
                            then other.(scheme) else self.(scheme))
  /\ (if Py.truthy other.(scheme) || has_authority other
      then u.(userinfo) = other.(userinfo) /\ u.(host) = Py.lower other.(host)
           /\ u.(port) = other.(port)
      else u.(userinfo) = self.(userinfo) /\ u.(host) = Py.lower self.(host)
           /\ u.(port) = self.(port))
  /\ u.(query) = (if Py.truthy other.(scheme) || has_authority other
                     || Py.truthy other.(path) || Py.truthy other.(query)
                  then other.(query) else self.(query)).
Proof. exact (join_parts self other u). Qed.

Lemma join_components_witness :
  URL_add url_user_host (mkURL "" "" "" "" "" "" "s")
  = Ok (mkURL "http" "user:pw" "host" "8080" "/p" "q" "s")
  /\ (mkURL "http" "user:pw" "host" "8080" "/p" "q" "s").(fragment) = "s".
Proof.
  assert (H : URL_add url_user_host (mkURL "" "" "" "" "" "" "s")
              = Ok (mkURL "http" "user:pw" "host" "8080" "/p" "q" "s"))
    by (vm_compute; reflexivity).
  split; [exact H |].
  exact (proj1 (join_components _ _ _ H)).
Defined.



(** ** The round trip of every parsed URL *)

Lemma scheme_class_cases (c : ascii) :
  none_of ":/?#" c = false ->
  c = ":"%char \/ c = "/"%char \/ c = "?"%char \/ c = "#"%char.
Proof.
  unfold none_of. cbn [Py.contains]. rewrite orb_false_r. intros H.
  apply negb_false_iff in H.
  repeat (apply orb_true_iff in H as [H | H]);
    apply Ascii.eqb_eq in H; subst; auto.
Qed.

Lemma scheme_class_weaker (s : string) :
  Py.all (none_of ":/?#") s = true ->
  Py.all (none_of "?#") s = true /\ Py.all not_slash s = true
  /\ Py.contains ":" s = false.
Proof.
  induction s as [|c s IH]; [auto |]. cbn [Py.all Py.contains].
  intros H. apply andb_true_iff in H as [Hc Hs].
  destruct (IH Hs) as (-> & -> & ->).
  rewrite 2!none_of_cons in Hc.
  apply andb_true_iff in Hc as [H1 Hc]. apply andb_true_iff in Hc as [H2 Hc].
  rewrite Hc. unfold not_slash.
  rewrite (Ascii.eqb_sym c "/"), (Ascii.eqb_sym c ":").
  apply negb_true_iff in H1, H2. now rewrite H1, H2.
Qed.

Lemma first_segment_rooted (pa : string) :
  pa = "" \/ Py.first_is "/" pa = true -> first_segment_has_colon pa = false.
Proof.
  unfold first_segment_has_colon. intros [-> | H]; [reflexivity |].
  destruct pa as [|c pa]; [reflexivity |]. cbn [Py.first_is] in H.
  cbn [span]. unfold not_slash. now rewrite H.
Qed.

Lemma split_authority_cases (s : string) :
  let '(ui, hp, r) := split_authority s in
  (ui = "" /\ hp = "" /\ r = s) \/ stops (none_of "/?#") r = true.
Proof.
  unfold split_authority.
  destruct s as [|c1 [|c2 r]]; auto.
  destruct ((c1 =? "/")%char && (c2 =? "/")%char); auto.
  destruct (split_userinfo r) as [ui r1].
  pose proof (span_snd_stops (none_of "/?#") r1) as H.
  destruct (span (none_of "/?#") r1) as [hp r2]. now right.
Qed.

(** The path of a split without scheme: a ":" in its first segment can only
    be its first character. *)
Lemma split_direct_first_segment (s : string) :
  (split_direct s).(scheme) = "" ->
  Py.first_is ":" (split_direct s).(path) = true
  \/ first_segment_has_colon (split_direct s).(path) = false.
Proof.
  unfold split_direct, split_scheme.
  destruct (span_spec (none_of ":/?#") s) as (E & Ha & Hb).
  destruct (span (none_of ":/?#") s) as [a b]; cbn [fst snd] in *.
  destruct (Py.truthy a && Py.first_is ":" b) eqn:C.
  - apply andb_true_iff in C as [Ca _].
    destruct (split_authority (skip ":" b)) as [[ui hp] r].
    destruct (split_tail r) as [[pa q] f]. cbn [scheme].
    intros ->. discriminate Ca.
  - pose proof (split_authority_cases s) as Hc.
    destruct (split_authority s) as [[ui hp] r].
    pose proof (split_tail_wf r) as Ht.
    destruct (split_tail r) as [[pa q] f]. destruct Ht as (Epa & _ & _).
    cbn [scheme path]. intros _.
    destruct Hc as [(_ & _ & ->) | Hs].
    2:{ right. apply first_segment_rooted. rewrite Epa. now apply path_after_host. }
    destruct (scheme_class_weaker a Ha) as (Ha1 & Ha2 & Ha3).
    rewrite E, (span_append_all _ a b Ha1) in Epa. cbn [fst] in Epa.
    assert (Hpb : b = "" \/ exists c b', b = String c b' /\ none_of ":/?#" c = false).
    { destruct b as [|c b']; [now left |]. right. exists c, b'. split; auto.
      cbn [stops] in Hb. now apply negb_true_iff in Hb. }
    destruct Hpb as [-> | (c & b' & -> & Hc)].
    + right. rewrite Epa. cbn [span fst]. rewrite append_nil_r.
      unfold first_segment_has_colon. now rewrite (span_all _ _ Ha2).
    + destruct (scheme_class_cases c Hc) as [-> | [-> | [-> | ->]]].
      * cbn [Py.first_is] in C. rewrite Ascii.eqb_refl, andb_true_r in C.
        apply truthy_false in C. subst a. left. rewrite Epa.
        cbn [append span]. change (none_of "?#" ":") with true. cbv iota.
        now destruct (span (none_of "?#") b').
      * right. subst pa. unfold first_segment_has_colon.
        rewrite (span_append_all _ a _ Ha2). cbn [fst].
        rewrite contains_append, Ha3. cbn [span].
        change (none_of "?#" "/") with true. cbv iota.
        destruct (span (none_of "?#") b') as [x y]. cbn [fst span].
        reflexivity.
      * right. subst pa. cbn [span fst]. rewrite append_nil_r.
        unfold first_segment_has_colon. now rewrite (span_all _ _ Ha2).
      * right. subst pa. cbn [span fst]. rewrite append_nil_r.
        unfold first_segment_has_colon. now rewrite (span_all _ _ Ha2).
Qed.

Lemma lower_empty (s : string) : Py.lower s = "" -> s = "".
Proof. now destruct s. Qed.

(** A URL written with the "//" mark, for its authority or for a path that
    starts with "//", is parsed back. *)
Lemma reparse_marked (u : URL) :
  wf_split u ->
  Py.lower u.(scheme) = u.(scheme) -> Py.lower u.(host) = u.(host) ->
  Py.truthy (authority u) || starts_2slash u.(path) = true ->
  u.(path) = "" \/ Py.first_is "/" u.(path) = true ->
  ends_with_colon u.(host) = false ->
  (u.(userinfo) = "" -> Py.contains "@" u.(host) = false) ->
  parse (as_string u) = Ok u.
Proof.
  intros W Ls Lh M R Hc Hat. rewrite parse_direct. f_equal.
  destruct W as [Wsc Wui Wh Wp Wpa Wq _].
  assert (Hfp : starts_delim (full_path u) = true) by now apply full_path_delim.
  assert (Eb : escape_base u = "//" ++ authority u)
    by now rewrite escape_base_guard, M.
  assert (Hs : split_scheme (as_string u)
               = (u.(scheme), ("//" ++ authority u) ++ full_path u)).
  { rewrite as_string_scheme, Eb. destruct (Py.truthy u.(scheme)) eqn:Et.
    - now apply split_scheme_present.
    - apply truthy_false in Et. rewrite Et. now apply split_scheme_delim. }
  unfold split_direct. rewrite Hs, authority_hostport.
  rewrite split_authority_serialized by assumption.
  rewrite full_path_tail, split_tail_tail_str by assumption.
  unfold canon; cbn [scheme userinfo host port path query fragment].
  rewrite split_port_hostport, Ls, Lh by assumption. now destruct u.
Qed.

(** A URL without scheme and authority whose path starts with ":" is written
    without escape and parsed back. *)
Lemma reparse_colon_first (u : URL) :
  wf_split u -> u.(scheme) = "" -> has_authority u = false ->
  Py.first_is ":" u.(path) = true ->
  parse (as_string u) = Ok u.
Proof.
  intros W Es Ea Hf. rewrite parse_direct. f_equal.
  destruct W as [_ _ _ _ Wpa Wq _].
  destruct (has_authority_false u Ea) as (Eu & Eh & Ep & EA).
  assert (P2 : starts_2slash u.(path) = false).
  { destruct u.(path) as [|c [|d r]]; try reflexivity.
    cbn [Py.first_is] in Hf. apply Ascii.eqb_eq in Hf. now subst c. }
  assert (Eb : escape_base u = "").
  { rewrite escape_base_guard, authority_empty, Ea, P2, EA, Es. cbn [orb Py.truthy negb andb].
    rewrite colon_guard_spec, Hf, andb_false_r. now destruct (Py.truthy u.(path)). }
  assert (Hs : split_scheme (as_string u) = ("", full_path u)).
  { rewrite as_string_scheme, Eb, Es. cbn [Py.truthy append].
    rewrite full_path_tail. unfold split_scheme.
    destruct u.(path) as [|c r]; [discriminate Hf |].
    cbn [Py.first_is] in Hf. apply Ascii.eqb_eq in Hf. subst c. reflexivity. }
  unfold split_direct. rewrite Hs, full_path_tail.
  rewrite split_authority_absent, split_tail_tail_str by assumption.
  unfold canon; cbn [scheme userinfo host port path query fragment].
  destruct u as [sc ui h p pa q f]; cbn in Es, Eu, Eh, Ep. now subst.
Qed.

(** A parsed URL is parsed back from its string when its host allows it. *)
Lemma reparse_parsed (s : string) (u : URL) :
  parse s = Ok u ->
  ends_with_colon u.(host) = false ->
  (u.(userinfo) = "" -> Py.contains "@" u.(host) = false) ->
  parse (as_string u) = Ok u.
Proof.
  intros Hu Hc Hat. pose proof (parse_wf s u Hu) as W.
  rewrite parse_direct in Hu. injection Hu as <-.
  destruct (canon_lower (split_direct s)) as [Ls Lh].
  set (u := canon (split_direct s)) in *.
  assert (F : u.(scheme) = "" ->
              Py.first_is ":" u.(path) = true
              \/ first_segment_has_colon u.(path) = false).
  { subst u. unfold canon.
    destruct (split_port (split_direct s).(host) (split_direct s).(port)).
    cbn [scheme path]. intros E. apply lower_empty in E.
    now apply split_direct_first_segment. }
  destruct (has_authority u) eqn:Ea.
  - apply reparse_wf; auto. left. apply truthy_iff. now rewrite authority_empty.
  - destruct (starts_2slash u.(path)) eqn:E2.
    + apply reparse_marked; [exact W | exact Ls | exact Lh | | | exact Hc | exact Hat].
      * rewrite E2. apply orb_true_r.
      * right. destruct u.(path) as [|c [|d r]]; try discriminate E2.
        cbn [starts_2slash] in E2. cbn [Py.first_is].
        now apply andb_true_iff in E2 as [-> _].
    + destruct (Py.truthy u.(scheme)) eqn:Es.
      * apply reparse_wf; auto. right. rewrite prefix_2slash. split; [exact E2 |].
        intros E. rewrite E in Es. discriminate Es.
      * apply truthy_false in Es. destruct (F Es) as [Hf | Hn].
        -- now apply reparse_colon_first.
        -- apply reparse_wf; auto. right. rewrite prefix_2slash. auto.
Qed.

(** X10: a parsed URL is parsed back from its string form whenever its host
    does not end in ":" and holds no "@" without a userinfo; the escapes of
    the serializer need no precondition. *)
Theorem parse_roundtrip_escaped (s : string) (u : URL) :
  parse s = Ok u ->
  ends_with_colon u.(host) = false ->
  (u.(userinfo) = "" -> Py.contains "@" u.(host) = false) ->
  parse (as_string u) = Ok u.
Proof. exact (reparse_parsed s u). Qed.

Lemma parse_roundtrip_escaped_witness :
  parse "////a:b" = Ok (mkURL "" "" "" "" "//a:b" "" "")
  /\ as_string (mkURL "" "" "" "" "//a:b" "" "") = "////a:b"
  /\ parse (as_string (mkURL "" "" "" "" "//a:b" "" ""))
     = Ok (mkURL "" "" "" "" "//a:b" "" "").
Proof.
  assert (H : parse "////a:b" = Ok (mkURL "" "" "" "" "//a:b" "" "")) by reflexivity.
  split; [exact H |]. split; [reflexivity |].
  exact (parse_roundtrip_escaped _ _ H eq_refl (fun _ => eq_refl)).
Defined.



(** ** Parsed URLs and the validator *)

(** X12: in a parsed URL the scheme holds none of ": / ? #", the userinfo
    none of "/ ? # @", the host none of "/ ? #", the port only digits, the
    path none of "? #" and the query no "#". *)
Theorem parsed_components (s : string) (u : URL) :
  parse s = Ok u ->
  Py.all (none_of ":/?#") u.(scheme) = true
  /\ Py.all (none_of "/?#@") u.(userinfo) = true
  /\ Py.all (none_of "/?#") u.(host) = true
  /\ Py.all Py.is_digit u.(port) = true
  /\ Py.all (none_of "?#") u.(path) = true
  /\ Py.all (none_of "#") u.(query) = true.
Proof. intros H. destruct (parse_wf s u H). auto 10. Qed.

Lemma parsed_components_witness :
  parse "http://user:pw@Host:8080/p?q#f" = Ok url_user_host
  /\ Py.all Py.is_digit url_user_host.(port) = true.
Proof.
  assert (H : parse "http://user:pw@Host:8080/p?q#f" = Ok url_user_host)
    by reflexivity.
  split; [exact H |].
  exact (proj1 (proj2 (proj2 (proj2 (parsed_components _ _ H))))).
Defined.

(** X13: for a parsed URL [validate] returns the URL or raises
    [InvalidScheme], [InvalidUserinfo] or [InvalidHost]; the path and the
    query of a parsed URL always pass. *)
Theorem validate_parsed (s : string) (u : URL) :
  parse s = Ok u ->
  validate u = Ok u \/ validate u = Raise InvalidScheme
  \/ validate u = Raise InvalidUserinfo \/ validate u = Raise InvalidHost.
Proof.
  intros H. destruct (parse_wf s u H) as [_ _ _ _ Wpa Wq _].
  rewrite validate_chain, Wpa, Wq. cbn [negb]. rewrite !andb_false_r.
  destruct (_ && _); [auto |].
  destruct (_ && _); [auto |].
  destruct (_ && _); auto.
Qed.

Lemma validate_parsed_witness :
  parse "//h/a b" = Ok (mkURL "" "" "h" "" "/a b" "" "")
  /\ validate (mkURL "" "" "h" "" "/a b" "" "") = Ok (mkURL "" "" "h" "" "/a b" "" "").
Proof.
  assert (H : parse "//h/a b" = Ok (mkURL "" "" "h" "" "/a b" "" "")) by reflexivity.
  split; [exact H |].
  destruct (validate_parsed _ _ H) as [E | [E | [E | E]]];
    [exact E | discriminate E | discriminate E | discriminate E].
Defined.

(** X14: [validate] looks at neither the port nor the fragment: with another
    port and fragment it raises the same exception, or returns the URL it was
    given. *)
Theorem validate_ignores_port_fragment (sc ui h p pa q f p' f' : string) :
  validate (mkURL sc ui h p' pa q f')
  = match validate (mkURL sc ui h p pa q f) with
    | Ok _ => Ok (mkURL sc ui h p' pa q f')
    | Raise e => Raise e
    end.
Proof.
  rewrite !validate_chain. cbn [scheme userinfo host port path query fragment].
  destruct (_ && _); [reflexivity |].
  destruct (_ && _); [reflexivity |].
  destruct (_ && _); [reflexivity |].
  destruct (_ && _); [reflexivity |].
  destruct (_ && _); reflexivity.
Qed.

(** ** Valid URLs survive the round trip *)

Lemma star_avoids (c : ascii) (p : ascii -> bool) (k : cont) (g m : captures)
    (s : string) :
  p c = false -> star p s g k = Some m ->
  exists a s', s = a ++ s' /\ Py.contains c a = false /\ k s' g = Some m.
Proof.
  intros Hp. induction s as [|d s IH]; cbn [star]; intros H.
  - now exists "", "".
  - destruct (p d) eqn:Ed; [| now exists "", (String d s)].
    destruct (star p s g k) as [r|] eqn:Es; [| now exists "", (String d s)].
    destruct (IH H) as (a & s' & -> & Ha & Hk).
    exists (String d a), s'. repeat split; auto.
    cbn [Py.contains]. rewrite Ha, orb_false_r.
    destruct (Ascii.eqb_spec d c) as [-> | N]; [congruence | reflexivity].
Qed.

(** What a pattern reads holds no character that the pattern avoids. *)
Lemma exec_avoids (c : ascii) (r : regex) :
  avoids c r = true ->
  forall inp s g k m, exec inp r s g k = Some m ->
  exists a s' g', s = a ++ s' /\ Py.contains c a = false /\ k s' g' = Some m.
Proof.
  induction r as [| d | p | p | r1 IH1 r2 IH2 | r1 IH1 r2 IH2 | r1 IH1 | n r1 IH1 | |];
    cbn [avoids]; intros Ha inp s g k m H; cbn [exec] in H.
  - now exists "", s, g.
  - destruct s as [|e s]; [discriminate |].
    destruct (Ascii.eqb_spec e d) as [-> | N]; [| discriminate].
    exists (String d ""), s, g. repeat split; auto.
    cbn [Py.contains]. apply negb_true_iff in Ha. now rewrite Ha.
  - destruct s as [|e s]; [discriminate |].
    destruct (p e) eqn:Ee; [| discriminate].
    exists (String e ""), s, g. repeat split; auto.
    cbn [Py.contains]. rewrite orb_false_r. apply negb_true_iff in Ha.
    destruct (Ascii.eqb_spec e c) as [-> | N]; [congruence | reflexivity].
  - apply negb_true_iff in Ha.
    destruct (star_avoids c p k g m s Ha H) as (a & s' & E & Hc & Hk).
    now exists a, s', g.
  - apply andb_true_iff in Ha as [A1 A2].
    destruct (IH1 A1 _ _ _ _ _ H) as (a1 & s1 & g1 & -> & C1 & H1).
    destruct (IH2 A2 _ _ _ _ _ H1) as (a2 & s2 & g2 & -> & C2 & H2).
    exists (a1 ++ a2), s2, g2. rewrite append_assoc, contains_append, C1, C2. auto.
  - apply andb_true_iff in Ha as [A1 A2].
    destruct (exec inp r1 s g k) eqn:E1.
    + injection H as ->. exact (IH1 A1 _ _ _ _ _ E1).
    + exact (IH2 A2 _ _ _ _ _ H).
  - destruct (exec inp r1 s g k) eqn:E1.
    + injection H as ->. exact (IH1 Ha _ _ _ _ _ E1).
    + now exists "", s, g.
  - destruct (IH1 Ha _ _ _ _ _ H) as (a & s' & g' & E & C & Hk). eauto 6.
  - destruct (String.length s =? String.length inp)%nat; [| discriminate].
    now exists "", s, g.
  - destruct ((s =? "") || (s =? String Py.LF "")); [| discriminate].
    now exists "", s, g.
Qed.

(** A string that [_valid_ip_literal_re] matches holds no "@". *)
Lemma ip_literal_no_at (s : string) :
  no_match _valid_ip_literal_re s = false -> Py.contains "@" s = false.
Proof.
  unfold no_match, rmatch. destruct (exec s _valid_ip_literal_re s [] _) as [m|] eqn:E;
    [intros _ | discriminate].
  unfold _valid_ip_literal_re in E.
  match type of E with
  | exec s (Bol ;;; ?A ;;; Eol) s [] ?k = _ =>
      change (exec s (Bol ;;; A) s [] (fun s' g' => exec s Eol s' g' k) = Some m) in E;
      assert (Ha : avoids "@" (Bol ;;; A) = true) by reflexivity;
      destruct (exec_avoids "@" _ Ha _ _ _ _ _ E) as (a & s' & g' & Es & Hc & Hk)
  end.
  cbn [exec] in Hk.
  rewrite Es, contains_append, Hc. cbn [orb].
  destruct (String.eqb_spec s' "") as [-> | N1]; [reflexivity |].
  destruct (String.eqb_spec s' (String Py.LF "")) as [-> | N2]; [reflexivity |].
  discriminate Hk.
Qed.

Lemma string_last (s : string) :
  s <> "" -> exists init d, s = init ++ String d "".
Proof.
  induction s as [|c s IH]; [contradiction |]. intros _.
  destruct s as [|e s].
  - now exists "", c.
  - destruct IH as (init & d & E); [discriminate |].
    exists (String c init), d. cbn [append]. now rewrite <- E.
Qed.

Lemma slice_first_char (c : ascii) (t : string) :
  Py.slice (String c t) None (Some 1%Z) = String c "".
Proof. exact (slice_to_append (String c "") t). Qed.

Lemma slice_inner (x y : ascii) (b : string) :
  Py.slice (String x (b ++ String y "")) (Some 1%Z) (Some (-1)%Z) = b.
Proof.
  unfold Py.slice, Py.clamp. cbn [Z.ltb Z.compare String.length].
  rewrite length_append. cbn [String.length].
  replace (Z.to_nat (Z.min 1 (Z.of_nat (S (String.length b + 1))))) with 1 by lia.
  replace (Z.to_nat (Z.max (-1 + Z.of_nat (S (String.length b + 1))) 0
                     - Z.min 1 (Z.of_nat (S (String.length b + 1)))))
    with (String.length b) by lia.
  cbn [substring]. apply substring_0_append.
Qed.

(** A bracketed host is "[", what [host[1:-1]] gives, and "]". *)
Lemma bracketed_inner (h : string) :
  bracketed h = true ->
  h = String "[" (Py.slice h (Some 1%Z) (Some (-1)%Z) ++ "]").
Proof.
  unfold bracketed. intros H. apply andb_true_iff in H as [H1 H2].
  apply String.eqb_eq in H1, H2.
  destruct h as [|c t]; [discriminate H1 |].
  rewrite slice_first_char in H1. injection H1 as ->.
  destruct (string_last (String "[" t)) as (init & d & E); [discriminate |].
  rewrite E, slice_last_append in H2. injection H2 as ->.
  destruct init as [|c' inner]; [discriminate E |].
  cbn [append] in E. injection E as <- ->.
  now rewrite slice_inner.
Qed.

Lemma all_none_of_contains (set : string) (c : ascii) (s : string) :
  Py.all (none_of set) s = true -> Py.contains c set = true ->
  Py.contains c s = false.
Proof.
  intros Hs Hc. induction s as [|d s IH]; [reflexivity |].
  cbn [Py.all Py.contains] in *. apply andb_true_iff in Hs as [Hd Hs].
  rewrite (IH Hs), orb_false_r.
  destruct (Ascii.eqb_spec d c) as [-> | N]; [| reflexivity].
  unfold none_of in Hd. now rewrite Hc in Hd.
Qed.

Lemma ends_with_colon_contains (h : string) :
  ends_with_colon h = true -> Py.contains ":" h = true.
Proof.
  unfold ends_with_colon. intros H. apply String.eqb_eq in H.
  destruct h as [|c t]; [discriminate H |].
  destruct (string_last (String c t)) as (init & d & E); [discriminate |].
  rewrite E in *. rewrite slice_last_append in H. injection H as ->.
  rewrite contains_append. cbn. apply orb_true_r.
Qed.

(** The host of a URL that passes [validate] holds no "@" and does not end
    in ":". *)
Lemma validate_ok_host (u : URL) :
  validate u = Ok u ->
  Py.contains "@" u.(host) = false /\ ends_with_colon u.(host) = false.
Proof.
  rewrite validate_chain.
  destruct (_ && _); [discriminate |].
  destruct (_ && _); [discriminate |].
  destruct (Py.truthy u.(host)) eqn:Eh.
  2:{ intros _. apply truthy_false in Eh. now rewrite Eh. }
  cbn [andb]. destruct (bracketed u.(host)) eqn:Eb.
  - destruct (no_match _ _) eqn:En; [discriminate |]. intros _.
    pose proof (ip_literal_no_at _ En) as Hi.
    pose proof (bracketed_inner _ Eb) as E.
    split.
    + rewrite E. cbn [Py.contains]. rewrite contains_append, Hi. reflexivity.
    + unfold bracketed in Eb. apply andb_true_iff in Eb as [_ E2].
      apply String.eqb_eq in E2. unfold ends_with_colon. now rewrite E2.
  - destruct (Py.all (none_of "/?#@[]:") u.(host)) eqn:Ea; [| discriminate].
    intros _. split.
    + now apply (all_none_of_contains "/?#@[]:").
    + destruct (ends_with_colon u.(host)) eqn:Ec; [| reflexivity].
      apply ends_with_colon_contains in Ec.
      now rewrite (all_none_of_contains "/?#@[]:" ":" _ Ea eq_refl) in Ec.
Qed.

(** X15: a parsed URL that passes [validate] is parsed back from its string
    form. *)
Theorem valid_roundtrip (s : string) (u : URL) :
  parse s = Ok u -> validate u = Ok u -> parse (as_string u) = Ok u.
Proof.
  intros Hp Hv. destruct (validate_ok_host u Hv) as [Hat Hc].
  now apply (reparse_parsed s).
Qed.

Lemma valid_roundtrip_witness :
  parse "HTTP://u@[::1]:80/a?b#c" = Ok (mkURL "http" "u" "[::1]" "80" "/a" "b" "c")
  /\ validate (mkURL "http" "u" "[::1]" "80" "/a" "b" "c")
     = Ok (mkURL "http" "u" "[::1]" "80" "/a" "b" "c")
  /\ parse (as_string (mkURL "http" "u" "[::1]" "80" "/a" "b" "c"))
     = Ok (mkURL "http" "u" "[::1]" "80" "/a" "b" "c").
Proof.
  assert (H : parse "HTTP://u@[::1]:80/a?b#c"
              = Ok (mkURL "http" "u" "[::1]" "80" "/a" "b" "c")) by reflexivity.
  assert (V : validate (mkURL "http" "u" "[::1]" "80" "/a" "b" "c")
              = Ok (mkURL "http" "u" "[::1]" "80" "/a" "b" "c")) by reflexivity.
  split; [exact H |]. split; [exact V |].
  exact (valid_roundtrip _ _ H V).
Defined.

(** ** IPv4 hosts *)

Lemma isdigit_all (p : string) : Py.isdigit p = true -> Py.all Py.is_digit p = true.
Proof. unfold Py.isdigit. intros H. now apply andb_true_iff in H. Qed.

Lemma forallb_weaken {A : Type} (f g : A -> bool) (l : list A) :
  (forall x, f x = true -> g x = true) -> forallb f l = true -> forallb g l = true.
Proof.
  intros H. induction l as [|x l IH]; [reflexivity |]. cbn [forallb].
  intros E. apply andb_true_iff in E as [Ex El]. now rewrite (H x Ex), IH.
Qed.

(** When the pieces between the dots are digits, the string is made of
    digits and dots. *)
Lemma split_digits (s : string) :
  forallb (Py.all Py.is_digit) (Py.split "." s) = true ->
  Py.all digit_or_dot s = true.
Proof.
  induction s as [|d s IH]; [reflexivity |]. cbn [Py.split Py.all].
  destruct (Ascii.eqb_spec d ".") as [-> | N].
  - cbn [forallb Py.all andb]. intros H. now rewrite (IH H).
  - destruct (Py.split "." s) as [|h t].
    + cbn [forallb Py.all]. rewrite !andb_true_r. intros H.
      unfold digit_or_dot at 1. now rewrite H, IH.
    + cbn [forallb Py.all]. intros H.
      apply andb_true_iff in H as [H Ht]. apply andb_true_iff in H as [Hd Hh].
      unfold digit_or_dot at 1. rewrite Hd. cbn [orb andb].
      apply IH. cbn [forallb]. now rewrite Hh, Ht.
Qed.

Lemma digit_or_dot_reg_name (c : ascii) :
  digit_or_dot c = true -> none_of "/?#@[]:" c = true.
Proof.
  destruct c as [[] [] [] [] [] [] [] []]; intros H; try discriminate H; reflexivity.
Qed.

Lemma all_weaken (p q : ascii -> bool) (s : string) :
  (forall c, p c = true -> q c = true) -> Py.all p s = true -> Py.all q s = true.
Proof.
  intros H. induction s as [|c s IH]; [reflexivity |]. cbn [Py.all].
  intros E. apply andb_true_iff in E as [Ec Es]. now rewrite (H c Ec), IH.
Qed.

(** X16: a host that [is_host_ipv4] accepts is made of digits and dots, in
    four pieces; [is_host_ip] accepts it too, and [validate] does not raise
    [InvalidHost] for it: a valid IPv4 address is also a valid reg-name. *)
Theorem ipv4_host_valid (u : URL) :
  is_host_ipv4 u = true ->
  Py.all digit_or_dot u.(host) = true
  /\ List.length (Py.split "." u.(host)) = 4
  /\ is_host_ip u = true
  /\ validate u <> Raise InvalidHost.
Proof.
  intros H. assert (Hip : is_host_ip u = true) by (unfold is_host_ip; now rewrite H).
  unfold is_host_ipv4 in H.
  destruct (Py.slice u.(host) None (Some 1%Z) =? "[") eqn:E1; [discriminate H |].
  cbn [negb] in H.
  destruct ((List.length (Py.split "." u.(host)) =? 4)%nat
            && forallb Py.isdigit (Py.split "." u.(host))) eqn:E2; [| discriminate H].
  apply andb_true_iff in E2 as [El Ed]. apply Nat.eqb_eq in El.
  assert (Hd : Py.all digit_or_dot u.(host) = true).
  { apply split_digits. exact (forallb_weaken _ _ _ isdigit_all Ed). }
  repeat split; auto.
  rewrite validate_chain. unfold bracketed. rewrite E1. cbn [andb].
  rewrite (all_weaken _ _ _ digit_or_dot_reg_name Hd). cbn [negb].
  rewrite andb_false_r.
  destruct (_ && _); [discriminate |].
  destruct (_ && _); [discriminate |].
  destruct (_ && _); [discriminate |].
  destruct (_ && _); discriminate.
Qed.

Lemma ipv4_host_valid_witness :
  is_host_ipv4 (mkURL "" "" "192.168.0.1" "" "" "" "") = true
  /\ validate (mkURL "" "" "192.168.0.1" "" "" "" "") <> Raise InvalidHost.
Proof.
  assert (H : is_host_ipv4 (mkURL "" "" "192.168.0.1" "" "" "" "") = true)
    by reflexivity.
  split; [exact H |].
  exact (proj2 (proj2 (proj2 (ipv4_host_valid _ H)))).
Defined.

(** ** The cache *)

Lemma cache_get_in (s : string) (u : URL) (c : cache) :
  cache_get s c = Some u -> In (s, u) c.
Proof.
  induction c as [|[k v] c IH]; [discriminate |]. cbn [cache_get].
  destruct (String.eqb_spec k s) as [-> | N].
  - intros [= ->]. now left.
  - intros H. right. now apply IH.
Qed.

Lemma cache_get_none (s : string) (c : cache) :
  cache_get s c = None -> ~ In s (map fst c).
Proof.
  induction c as [|[k v] c IH]; [auto |]. cbn [cache_get map fst].
  destruct (String.eqb_spec k s) as [-> | N]; [discriminate |].
  intros H [E | E]; [contradiction | now apply IH].
Qed.

(** A call with a coherent cache. *)
Lemma cached_parse_coherent (c : cache) (s : string) (sc ui h p pa q f : string) :
  coherent c ->
  fst (CachedURL_new c (Some s) sc ui h p pa q f) = parse s
  /\ coherent (snd (CachedURL_new c (Some s) sc ui h p pa q f))
  /\ (exists u, parse s = Ok u
                /\ cache_get s (snd (CachedURL_new c (Some s) sc ui h p pa q f))
                   = Some u)
  /\ CachedURL_new c None sc ui h p pa q f = (build sc ui h p pa q f, c).
Proof.
  intros (Hn & He & Hl). unfold CachedURL_new.
  destruct (cache_get s c) as [u|] eqn:Eg.
  - pose proof (He s u (cache_get_in _ _ _ Eg)) as Hp. cbn [fst snd].
    repeat split; auto. exists u. auto.
  - change (URL_new (Some s) "" "" "" "" "" "" "") with (parse s).
    rewrite parse_direct. cbn [fst snd].
    set (u := canon (split_direct s)).
    set (c1 := if (_cache_size <=? List.length c)%nat then [] else c).
    assert (H1 : ~ In s (map fst c1) /\ NoDup (map fst c1)
                 /\ (forall s' u', In (s', u') c1 -> parse s' = Ok u')
                 /\ List.length c1 < _cache_size).
    { subst c1. destruct (Nat.leb_spec _cache_size (List.length c)).
      - split; [intros [] |]. split; [constructor |].
        split; [intros s' u' [] |]. cbn [List.length]. unfold _cache_size. lia.
      - split; [now apply cache_get_none |]. split; [exact Hn |].
        split; [exact He | exact H]. }
    destruct H1 as (Hs & Hn1 & He1 & Hl1).
    repeat split.
    + cbn [map fst]. now constructor.
    + intros s' u' [[= <- <-] | Hin]; [apply parse_direct | now apply He1].
    + cbn [List.length]. lia.
    + exists u. split; [reflexivity |]. cbn [cache_get]. now rewrite String.eqb_refl.
Qed.

(** X17: with a cache that is coherent (one pair per key, each key with the
    URL it parses to, at most [_cache_size] pairs), [CachedURL] returns what
    [URL] returns for the string, hands back a coherent cache, and that cache
    holds the string with the URL returned.  Called without a string it
    builds from the components and leaves the cache alone. *)
Theorem cached_parse (c : cache) (s : string) (sc ui h p pa q f : string) :
  coherent c ->
  fst (CachedURL_new c (Some s) sc ui h p pa q f) = parse s
  /\ coherent (snd (CachedURL_new c (Some s) sc ui h p pa q f))
  /\ (exists u, parse s = Ok u
                /\ cache_get s (snd (CachedURL_new c (Some s) sc ui h p pa q f))
                   = Some u)
  /\ CachedURL_new c None sc ui h p pa q f = (build sc ui h p pa q f, c).
Proof. exact (cached_parse_coherent c s sc ui h p pa q f). Qed.

Lemma coherent_nil : coherent [].
Proof.
  repeat split; [constructor | intros s u [] | unfold _cache_size; cbn; lia].
Qed.

Lemma cached_parse_witness :
  coherent []
  /\ fst (CachedURL_new [] (Some "//h") "" "" "" "" "" "" "") = parse "//h".
Proof.
  split; [exact coherent_nil |].
  exact (proj1 (cached_parse [] "//h" "" "" "" "" "" "" "" coherent_nil)).
Defined.

(** X18: after a call with a string, a second call with the same string is
    answered from the cache: it returns the same URL and leaves the cache as
    it is.  A miss on a full cache empties it, so that the new pair is the
    only one left. *)
Theorem cached_hit_and_overflow (c : cache) (s : string)
    (sc ui h p pa q f sc' ui' h' p' pa' q' f' : string) :
  coherent c ->
  CachedURL_new (snd (CachedURL_new c (Some s) sc ui h p pa q f)) (Some s)
                sc' ui' h' p' pa' q' f'
  = CachedURL_new c (Some s) sc ui h p pa q f
  /\ (List.length c = _cache_size -> cache_get s c = None ->
      exists u, CachedURL_new c (Some s) sc ui h p pa q f = (Ok u, [(s, u)])).
Proof.
  intros Hc. split.
  - destruct (cached_parse_coherent c s sc ui h p pa q f Hc) as (Hf & _ & (u & Hu & Hg) & _).
    destruct (CachedURL_new c (Some s) sc ui h p pa q f) as [r c'] eqn:E.
    cbn [fst snd] in *. unfold CachedURL_new at 1. rewrite Hg. congruence.
  - intros Hl Hg. unfold CachedURL_new. rewrite Hg, Hl, Nat.leb_refl.
    change (URL_new (Some s) "" "" "" "" "" "" "") with (parse s).
    rewrite parse_direct. eauto.
Qed.

Lemma cached_hit_and_overflow_witness :
  coherent []
  /\ CachedURL_new (snd (CachedURL_new [] (Some "//h") "" "" "" "" "" "" ""))
                   (Some "//h") "x" "" "" "" "" "" ""
     = CachedURL_new [] (Some "//h") "" "" "" "" "" "" "".
Proof.
  split; [exact coherent_nil |].
  exact (proj1 (cached_hit_and_overflow [] "//h" "" "" "" "" "" "" ""
                                        "x" "" "" "" "" "" "" coherent_nil)).
Defined.

(** ** What the validator accepts *)

Lemma span_snd_empty (p : ascii -> bool) (s : string) :
  snd (span p s) = "" <-> Py.all p s = true.
Proof.
  split.
  - intros H. destruct (span_spec p s) as (E & Ha & _).
    rewrite H, append_nil_r in E. now rewrite E.
  - intros H. now rewrite span_all.
Qed.

(** X19: [validate] raises [InvalidScheme] exactly when the scheme is not
    empty and is neither in the grammar [a-z][a-z0-9+.-]* nor a string of
    that grammar followed by one newline. *)
Theorem validate_scheme (u : URL) :
  validate u = Raise InvalidScheme <->
  u.(scheme) <> ""
  /\ scheme_grammar u.(scheme) = false
  /\ ~ (exists s0, u.(scheme) = s0 ++ String Py.LF ""
                   /\ scheme_grammar s0 = true).
Proof.
  rewrite validate_chain, no_match_scheme.
  destruct u.(scheme) as [|c r] eqn:Es.
  - cbn [Py.truthy andb]. split.
    + destruct (_ && _); [discriminate |].
      destruct (_ && _); [discriminate |].
      destruct (_ && _); [discriminate |].
      destruct (_ && _); discriminate.
    + intros (N & _). contradiction.
  - cbn [Py.truthy andb scheme_grammar].
    destruct (span_spec scheme_tail r) as (E & Ha & Hb).
    destruct (Py.is_lower c) eqn:Ec; cbn [andb negb].
    2:{ split; [intros _ | reflexivity]. repeat split; [discriminate |].
        intros (s0 & E0 & G0). destruct s0 as [|c0 r0]; [discriminate G0 |].
        cbn [append] in E0. injection E0 as <- _.
        cbn [scheme_grammar] in G0. now rewrite Ec in G0. }
    destruct (String.eqb_spec (snd (span scheme_tail r)) "") as [E1 | N1].
    { cbn [orb negb]. apply span_snd_empty in E1. rewrite E1. split.
      - destruct (_ && _); [discriminate |].
        destruct (_ && _); [discriminate |].
        destruct (_ && _); [discriminate |].
        destruct (_ && _); discriminate.
      - intros (_ & D & _). discriminate D. }
    assert (Hall : Py.all scheme_tail r = false).
    { destruct (Py.all scheme_tail r) eqn:A; [| reflexivity].
      apply span_snd_empty in A. contradiction. }
    rewrite Hall. cbn [orb].
    destruct (String.eqb_spec (snd (span scheme_tail r)) (String Py.LF "")) as [E2 | N2].
    + cbn [negb]. split.
      * destruct (_ && _); [discriminate |].
        destruct (_ && _); [discriminate |].
        destruct (_ && _); [discriminate |].
        destruct (_ && _); discriminate.
      * intros (_ & _ & N). exfalso. apply N.
        exists (String c (fst (span scheme_tail r))). split.
        -- cbn [append]. f_equal. now rewrite <- E2.
        -- cbn [scheme_grammar]. now rewrite Ec, Ha.
    + cbn [negb]. split; [intros _ | reflexivity].
      repeat split; [discriminate |].
      intros (s0 & E0 & G0). destruct s0 as [|c0 r0]; [discriminate G0 |].
      cbn [append] in E0. injection E0 as <- Er.
      cbn [scheme_grammar] in G0. apply andb_true_iff in G0 as [_ G0].
      apply N2. rewrite Er. now rewrite (span_append scheme_tail r0 (String Py.LF "")).
Qed.

(** X20: [validate] tests the components that are not empty in the order
    scheme, userinfo, host, path, query and stops at the first that fails;
    the fragment is not tested; a URL that passes is returned as it is.  A
    userinfo passes when it holds none of "/ ? # @ [ ]", a host without
    brackets when it holds none of "/ ? # @ [ ] :", a path when it holds
    none of "? #", a query when it holds no "#". *)
Theorem validate_order (u : URL) :
  validate u =
  if Py.truthy u.(scheme) && no_match _valid_scheme_re u.(scheme)
  then Raise InvalidScheme
  else if Py.truthy u.(userinfo) && negb (Py.all (none_of "/?#@[]") u.(userinfo))
  then Raise InvalidUserinfo
  else if Py.truthy u.(host)
          && (if bracketed u.(host)
              then no_match _valid_ip_literal_re
                            (Py.slice u.(host) (Some 1%Z) (Some (-1)%Z))
              else negb (Py.all (none_of "/?#@[]:") u.(host)))
  then Raise InvalidHost
  else if Py.truthy u.(path) && negb (Py.all (none_of "?#") u.(path))
  then Raise InvalidPath
  else if Py.truthy u.(query) && negb (Py.all (none_of "#") u.(query))
  then Raise InvalidQuery
  else Ok u.
Proof. exact (validate_chain u). Qed.
